(** * ic_camera_control: the camera session wrapper over the tisgrabber DLL

    A shallow embedding of [ic_camera_control/ic_camera_control.py].  The
    class [IcCameraControl] is a facade over the vendor library: every
    method is a short sequence of foreign calls, attribute updates and log
    records.  The vendor library itself is closed source, so it enters the
    development as an interface ([TisGrabber]); the methods are written
    once, over any implementation of that interface, in a small monad that
    threads the Python heap (the vendor state, the session object, the log)
    and keeps the heap when an exception is raised. *)

From Stdlib Require Import ZArith List String Ascii Bool Lia.
From Stdlib Require Import Strings.Byte.
From ExtLib Require Import Structures.Monad.
Import ListNotations.
Import MonadNotation.

Local Open Scope string_scope.
Local Open Scope Z_scope.
Local Open Scope monad_scope.

Set Implicit Arguments.

(** ** Values crossing the foreign boundary *)

(** A Python [str] and a [bytes] object are both modelled by their UTF-8
    bytes; [tis.T] ([instr.encode("utf-8")]) is then the identity. *)
Definition T (instr : string) : string := instr.

(** The default of [config_file_path]: no configuration file. *)
Definition no_path : string := EmptyString.

(** The four out-parameters of [IC_GetImageDescription]: two [c_long] and
    two [c_int] cells, read back through [.value]. *)
Record ImageDescription := mkDesc {
  d_width : Z;
  d_height : Z;
  d_bits_per_pixel : Z;
  d_color_format : Z
}.

(** ** The vendor library

    [Lib] is the state hidden behind the DLL.  Calls that only inspect it
    are functions of the state; calls that may change it return the new
    state.  A grabber handle, a frame filter and an image pointer are
    addresses ([Z]); a [c_char_p] or [c_void_p] result is [None] when the
    library returns NULL.  The constants are those of the [tisgrabber]
    module, which the wrapper only names. *)
Class TisGrabber := {
  Lib : Type;
  IC_SUCCESS : Z;
  IC_FILE_NOT_FOUND : Z;
  IC_DEVICE_NOT_FOUND : Z;
  IC_WRONG_XML_FORMAT : Z;
  IC_WRONG_INCOMPATIBLE_XML : Z;
  IC_InitLibrary : Lib -> Z -> Lib;
  IC_CreateGrabber : Lib -> Lib * Z;
  IC_ReleaseGrabber : Lib -> Z -> Lib;
  IC_IsDevValid : Lib -> Z -> Z;
  IC_GetDeviceCount : Lib -> Z;
  IC_GetUniqueNamefromList : Lib -> Z -> option string;
  IC_OpenDevByUniqueName : Lib -> Z -> option string -> Lib;
  IC_ShowDeviceSelectionDialog : Lib -> option Z -> Lib * Z;
  IC_GetDeviceName : Lib -> Z -> option string;
  IC_SetCallbacks : Lib -> Z -> Lib;
  IC_LoadDeviceStateFromFileEx : Lib -> Z -> string -> bool -> Lib * Z;
  IC_SaveDeviceStateToFile : Lib -> Z -> string -> Lib * Z;
  IC_StartLive : Lib -> Z -> bool -> Lib;
  IC_StopLive : Lib -> Z -> Lib;
  IC_SnapImage : Lib -> Z -> Z -> Lib * Z;
  IC_GetImagePtr : Lib -> Z -> option Z;
  IC_GetImageDescription : Lib -> Z -> ImageDescription -> ImageDescription;
  IC_ShowPropertyDialog : Lib -> Z -> Lib;
  IC_printItemandElementNames : Lib -> Z -> Lib;
  IC_CreateFrameFilter : Lib -> string -> Lib * Z;
  IC_AddFrameFilterToDevice : Lib -> Z -> Z -> Lib;
  IC_FrameFilterSetParameterBoolean : Lib -> Z -> string -> Z -> Lib;
  (** the byte of process memory that ctypes reads at an address *)
  peek : Lib -> Z -> byte;
  (** [bytes.decode('utf-8', 'ignore')] of the Python runtime *)
  decode_utf8_ignore : string -> string
}.

(** ** The session object and the heap *)

(** [CallbackUserdata]: the record handed to the vendor library with the
    device-lost callback and read back by [read]. *)
Record CallbackUserdata := mkUserdata {
  unsused : string;
  devicename : string;
  connected : bool
}.

Record IcCameraControl := mkSelf {
  _width : Z;
  _height : Z;
  _bits_per_pixel : Z;
  _color_format : Z;
  _channel : Z;
  _buffer_size : Z;
  IC_MsgBox_show : bool;
  userdata : CallbackUserdata;
  _hGrabber : Z
}.

(** One record per foreign call the wrapper makes, in call order. *)
Inductive Call :=
| Call_InitLibrary
| Call_CreateGrabber (ret : Z)
| Call_ReleaseGrabber (h : Z)
| Call_IsDevValid (h : Z) (ret : Z)
| Call_GetDeviceCount (ret : Z)
| Call_GetUniqueNamefromList (i : Z)
| Call_OpenDevByUniqueName (h : Z) (name : option string)
| Call_ShowDeviceSelectionDialog (arg : option Z) (ret : Z)
| Call_GetDeviceName (h : Z)
| Call_SetCallbacks (h : Z)
| Call_LoadDeviceStateFromFileEx (h : Z) (path : string) (open : bool) (ret : Z)
| Call_SaveDeviceStateToFile (h : Z) (path : string) (ret : Z)
| Call_StartLive (h : Z) (window : bool)
| Call_StopLive (h : Z)
| Call_SnapImage (h : Z) (timeout : Z) (ret : Z)
| Call_GetImagePtr (h : Z)
| Call_GetImageDescription (h : Z)
| Call_ShowPropertyDialog (h : Z)
| Call_printItemandElementNames (h : Z)
| Call_CreateFrameFilter (name : string) (ret : Z)
| Call_AddFrameFilterToDevice (h : Z) (f : Z)
| Call_FrameFilterSetParameterBoolean (f : Z) (name : string) (v : Z).

Inductive Level := DEBUG | INFO | WARNING | ERROR.

Definition LogRecord : Type := Level * string.

(** Exceptions the wrapper's own Python code can raise. *)
Inductive Exn := ValueError | TypeError | OverflowError | AttributeError.

(** A frame: the shape given to [np.ndarray] and the bytes it views. *)
Record ndarray := mkArray {
  shape : Z * Z * Z;
  data : list byte
}.

Definition nbytes (a : ndarray) : Z := Z.of_nat (List.length (data a)).

(** What [read] hands back: a pair, or Python's implicit [None]. *)
Inductive ReadResult :=
| RPair (ok : bool) (img : option ndarray)
| RNone.

Inductive Result (A : Type) :=
| Return (a : A)
| Raise (e : Exn).

Arguments Raise {A} e.

Section Wrapper.

Context {tis : TisGrabber}.

Record Heap := mkHeap {
  lib : Lib;
  calls : list Call;
  logged : list LogRecord;
  self : IcCameraControl
}.

(** State and exceptions; the heap survives a raise. *)
Definition Py (A : Type) : Type := Heap -> Result A * Heap.

#[export] Instance Monad_Py : Monad Py := {
  ret := fun A (a : A) (s : Heap) => (Return a, s);
  bind := fun A B (m : Py A) (k : A -> Py B) (s : Heap) =>
    match m s with
    | (Return a, s') => k a s'
    | (Raise e, s') => (Raise e, s')
    end
}.

Definition raise {A : Type} (e : Exn) : Py A := fun s => (Raise e, s).

Definition get_self : Py IcCameraControl := fun s => (Return (self s), s).

Definition set_self (f : IcCameraControl -> IcCameraControl) : Py unit :=
  fun s => (Return tt, mkHeap (lib s) (calls s) (logged s) (f (self s))).

(** [logger.<level>(msg)] *)
Definition log (lv : Level) (msg : string) : Py unit :=
  fun s => (Return tt, mkHeap (lib s) (calls s) (logged s ++ [(lv, msg)]) (self s)).

(** A foreign call that changes the library state and returns a value. *)
Definition ffi {A : Type} (f : Lib -> Lib * A) (ev : A -> Call) : Py A :=
  fun s =>
    let r := f (lib s) in
    (Return (snd r), mkHeap (fst r) (calls s ++ [ev (snd r)]) (logged s) (self s)).

Definition ffi_ (f : Lib -> Lib) (ev : Call) : Py unit :=
  ffi (fun l => (f l, tt)) (fun _ => ev).

Definition ffi_query {A : Type} (f : Lib -> A) (ev : A -> Call) : Py A :=
  ffi (fun l => (l, f l)) ev.

(** Attribute updates. *)
Definition with_hGrabber (h : Z) (s : IcCameraControl) : IcCameraControl :=
  mkSelf (_width s) (_height s) (_bits_per_pixel s) (_color_format s)
         (_channel s) (_buffer_size s) (IC_MsgBox_show s) (userdata s) h.

Definition with_userdata (u : CallbackUserdata) (s : IcCameraControl) : IcCameraControl :=
  mkSelf (_width s) (_height s) (_bits_per_pixel s) (_color_format s)
         (_channel s) (_buffer_size s) (IC_MsgBox_show s) u (_hGrabber s).

Definition with_description (d : ImageDescription) (s : IcCameraControl) : IcCameraControl :=
  mkSelf (d_width d) (d_height d) (d_bits_per_pixel d) (d_color_format d)
         (_channel s) (_buffer_size s) (IC_MsgBox_show s) (userdata s) (_hGrabber s).

Definition with_channel (c : Z) (s : IcCameraControl) : IcCameraControl :=
  mkSelf (_width s) (_height s) (_bits_per_pixel s) (_color_format s)
         c (_buffer_size s) (IC_MsgBox_show s) (userdata s) (_hGrabber s).

Definition with_buffer_size (n : Z) (s : IcCameraControl) : IcCameraControl :=
  mkSelf (_width s) (_height s) (_bits_per_pixel s) (_color_format s)
         (_channel s) n (IC_MsgBox_show s) (userdata s) (_hGrabber s).

Definition with_devicename (n : string) (u : CallbackUserdata) : CallbackUserdata :=
  mkUserdata (unsused u) n (connected u).

Definition with_connected (b : bool) (u : CallbackUserdata) : CallbackUserdata :=
  mkUserdata (unsused u) (devicename u) b.

(** ** ctypes and numpy *)

(** The largest [Py_ssize_t] of the 64-bit interpreter the DLL is built for. *)
Definition PY_SSIZE_T_MAX : Z := 2 ^ 63 - 1.

(** [ctypes.cast(image_ptr, POINTER(c_ubyte * n)).contents]: a length that
    is no [Py_ssize_t] is an OverflowError, a negative one a ValueError;
    the contents are the [n] bytes of memory from the pointer on. *)
Definition ctypes_ubyte_array (image_ptr n : Z) : Py (list byte) :=
  fun s =>
    if (n <? - 2 ^ 63) || (PY_SSIZE_T_MAX <? n) then (Raise OverflowError, s)
    else if n <? 0 then (Raise ValueError, s)
    else (Return (map (fun i => peek (lib s) (image_ptr + Z.of_nat i))
                      (seq 0 (Z.to_nat n))), s).

(** numpy's [npy_intp] is the 64-bit signed integer; its products wrap. *)
Definition NPY_MAX_INTP : Z := 2 ^ 63 - 1.
Definition NPY_MIN_INTP : Z := - 2 ^ 63.

Definition wrap_intp (z : Z) : Z := (z + 2 ^ 63) mod 2 ^ 64 - 2 ^ 63.

(** [PyArray_MultiplyList]: the plain product of the dimensions, in
    [npy_intp]. *)
Definition PyArray_MultiplyList (dims : list Z) : Z :=
  fold_left (fun acc d => wrap_intp (acc * d)) dims 1.

(** The byte count as [PyArray_NewFromDescr] computes it from the item
    size: a dimension of zero is skipped, a negative one is an error, and
    so is a product beyond [NPY_MAX_INTP]. *)
Fixpoint checked_nbytes (nb : Z) (dims : list Z) : option Z :=
  match dims with
  | [] => Some nb
  | d :: rest =>
      if d =? 0 then checked_nbytes nb rest
      else if d <? 0 then None
      else if NPY_MAX_INTP <? nb * d then None
      else checked_nbytes (nb * d) rest
  end.

(** [np.ndarray(buffer=b, dtype=np.uint8, shape=(d0, d1, d2))].  A
    dimension that is no [npy_intp] is a ValueError; then a buffer shorter
    than the (wrapping) product of the dimensions is a TypeError; then a
    negative dimension, or non-zero dimensions whose product overflows,
    is a ValueError; otherwise the array views the first [d0*d1*d2] bytes
    of the buffer. *)
Definition np_ndarray (b : list byte) (d0 d1 d2 : Z) : Py ndarray :=
  let dims := [d0; d1; d2] in
  if existsb (fun d => (d <? NPY_MIN_INTP) || (NPY_MAX_INTP <? d)) dims
  then raise ValueError
  else if Z.of_nat (List.length b) <? PyArray_MultiplyList dims
  then raise TypeError
  else match checked_nbytes 1 dims with
       | None => raise ValueError
       | Some _ =>
           ret (mkArray (d0, d1, d2) (firstn (Z.to_nat (d0 * d1 * d2)) b))
       end.

(** ** The methods of [IcCameraControl] *)

Definition _frameReadyCallback : Py unit := ret tt.

(** Runs on the vendor's thread, on the [userdata] object registered by
    [_setup_device]. *)
Definition _deviceLostCallback : Py unit :=
  set_self (fun s => with_userdata (with_connected false (userdata s)) s) ;;
  s <- get_self ;;
  log ERROR ("Device " ++ devicename (userdata s) ++ " lost").

Definition _handle_device_open_error : Py unit :=
  log INFO "No device opened".

Definition read : Py ReadResult :=
  s <- get_self ;;
  r <- ffi (fun l => IC_SnapImage l (_hGrabber s) (-1))
           (Call_SnapImage (_hGrabber s) (-1)) ;;
  if r =? IC_SUCCESS then
    image_ptr <- ffi_query (fun l => IC_GetImagePtr l (_hGrabber s))
                           (fun _ => Call_GetImagePtr (_hGrabber s)) ;;
    match image_ptr with
    | Some p =>
        s <- get_self ;;
        image_data <- ctypes_ubyte_array p (_buffer_size s) ;;
        img_array <- np_ndarray image_data (_height s) (_width s) (_channel s) ;;
        s <- get_self ;;
        ret (RPair (connected (userdata s)) (Some img_array))
    | None =>
        log WARNING "No device found." ;;
        ret RNone
    end
  else
    s <- get_self ;;
    ret (RPair (connected (userdata s)) None).

Definition load_properties (config_file_path : string) (should_open_device : bool)
  : Py unit :=
  s <- get_self ;;
  r <- ffi (fun l => IC_LoadDeviceStateFromFileEx l (_hGrabber s)
                       (T config_file_path) should_open_device)
           (Call_LoadDeviceStateFromFileEx (_hGrabber s) (T config_file_path)
              should_open_device) ;;
  if (r =? IC_FILE_NOT_FOUND) || (r =? IC_DEVICE_NOT_FOUND)
     || (r =? IC_WRONG_XML_FORMAT) || (r =? IC_WRONG_INCOMPATIBLE_XML)
  then log ERROR "Can not load config"
  else ret tt.

Definition _select_device : Py Z :=
  devicecount <- ffi_query IC_GetDeviceCount Call_GetDeviceCount ;;
  if devicecount >? 1 then
    ffi (fun l => IC_ShowDeviceSelectionDialog l None)
        (Call_ShowDeviceSelectionDialog None)
  else
    unique_name <- ffi_query (fun l => IC_GetUniqueNamefromList l 0)
                             (fun _ => Call_GetUniqueNamefromList 0) ;;
    s <- get_self ;;
    ffi_ (fun l => IC_OpenDevByUniqueName l (_hGrabber s) unique_name)
         (Call_OpenDevByUniqueName (_hGrabber s) unique_name) ;;
    s <- get_self ;;
    ret (_hGrabber s).

Definition _setup_device : Py unit :=
  s <- get_self ;;
  name <- ffi_query (fun l => IC_GetDeviceName l (_hGrabber s))
                    (fun _ => Call_GetDeviceName (_hGrabber s)) ;;
  match name with
  | None => raise AttributeError
  | Some b =>
      set_self (fun s => with_userdata
                  (with_devicename (decode_utf8_ignore b) (userdata s)) s)
  end ;;
  set_self (fun s => with_userdata (with_connected true (userdata s)) s) ;;
  s <- get_self ;;
  ffi_ (fun l => IC_SetCallbacks l (_hGrabber s)) (Call_SetCallbacks (_hGrabber s)).

(** [if x:] on a C int. *)
Definition truthy (x : Z) : bool := negb (x =? 0).

Definition is_dev_valid : Py bool :=
  s <- get_self ;;
  v <- ffi_query (fun l => IC_IsDevValid l (_hGrabber s))
                 (Call_IsDevValid (_hGrabber s)) ;;
  ret (truthy v).

Definition open_device (config_file_path : string) : Py bool :=
  load_properties config_file_path true ;;
  valid <- is_dev_valid ;;
  (if negb valid then
     h <- _select_device ;;
     set_self (with_hGrabber h)
   else ret tt) ;;
  valid <- is_dev_valid ;;
  if valid then
    _setup_device ;;
    s <- get_self ;;
    log INFO ("Device " ++ devicename (userdata s) ++ " open") ;;
    ret true
  else
    _handle_device_open_error ;;
    ret false.

Definition _get_image_description : Py unit :=
  s <- get_self ;;
  d <- ffi_query (fun l => IC_GetImageDescription l (_hGrabber s)
                             (mkDesc (_width s) (_height s) (_bits_per_pixel s)
                                     (_color_format s)))
                 (fun _ => Call_GetImageDescription (_hGrabber s)) ;;
  set_self (with_description d) ;;
  (* int(bits / 8.0): the quotient is exact in a double, int truncates *)
  set_self (fun s => with_channel (Z.quot (_bits_per_pixel s) 8) s) ;;
  set_self (fun s => with_buffer_size (_width s * _height s * _bits_per_pixel s) s).

Definition start (create_window : bool) : Py unit :=
  s <- get_self ;;
  ffi_ (fun l => IC_StartLive l (_hGrabber s) create_window)
       (Call_StartLive (_hGrabber s) create_window) ;;
  _get_image_description.

(** The handle goes to the vendor as the call passes it; the stored
    handle is modelled as left alone by [IC_ReleaseGrabber]. *)
Definition release : Py unit :=
  valid <- is_dev_valid ;;
  if valid then
    s <- get_self ;;
    ffi_ (fun l => IC_StopLive l (_hGrabber s)) (Call_StopLive (_hGrabber s)) ;;
    s <- get_self ;;
    ffi_ (fun l => IC_ReleaseGrabber l (_hGrabber s)) (Call_ReleaseGrabber (_hGrabber s))
  else ret tt.

(** The dialog runs on a thread of its own; the method only starts it. *)
Definition show_property_dialog : Py unit :=
  s <- get_self ;;
  ffi_ (fun l => IC_ShowPropertyDialog l (_hGrabber s))
       (Call_ShowPropertyDialog (_hGrabber s)).

Definition list_available_properties : Py unit :=
  s <- get_self ;;
  ffi_ (fun l => IC_printItemandElementNames l (_hGrabber s))
       (Call_printItemandElementNames (_hGrabber s)).

Definition save_properties (file_path : string) : Py unit :=
  s <- get_self ;;
  _ <- ffi (fun l => IC_SaveDeviceStateToFile l (_hGrabber s) (T file_path))
           (Call_SaveDeviceStateToFile (_hGrabber s) (T file_path)) ;;
  ret tt.

Definition _flip_image : Py unit :=
  _filter <- ffi (fun l => IC_CreateFrameFilter l (T "Rotate Flip"))
                 (Call_CreateFrameFilter (T "Rotate Flip")) ;;
  s <- get_self ;;
  ffi_ (fun l => IC_AddFrameFilterToDevice l (_hGrabber s) _filter)
       (Call_AddFrameFilterToDevice (_hGrabber s) _filter) ;;
  ffi_ (fun l => IC_FrameFilterSetParameterBoolean l _filter (T "Flip V") 1)
       (Call_FrameFilterSetParameterBoolean _filter (T "Flip V") 1).

(** [CallbackUserdata()] *)
Definition CallbackUserdata_init : CallbackUserdata :=
  mkUserdata EmptyString EmptyString false.

(** [IcCameraControl(config_file_path, IC_MsgBox_show)] on a freshly loaded
    library.  The attributes are set in source order; [_hGrabber] does not
    exist before [IC_CreateGrabber] returns and nothing reads it earlier,
    so the record starts with a NULL placeholder. *)
Definition __init__ (config_file_path : string) (msgbox : bool) : Py unit :=
  set_self (fun _ => mkSelf 0 0 0 0 0 0 false CallbackUserdata_init 0) ;;
  ffi_ (fun l => IC_InitLibrary l 0) Call_InitLibrary ;;
  set_self (fun s => mkSelf (_width s) (_height s) (_bits_per_pixel s)
                            (_color_format s) (_channel s) (_buffer_size s)
                            msgbox CallbackUserdata_init (_hGrabber s)) ;;
  h <- ffi IC_CreateGrabber Call_CreateGrabber ;;
  set_self (with_hGrabber h) ;;
  _ <- open_device config_file_path ;;
  _flip_image ;;
  start false.

(** The heap in which the constructor calls [open_device]: the library
    initialised, the grabber created and stored. *)
Definition constructed (msgbox : bool) (l : Lib) : Heap :=
  let r := IC_CreateGrabber (IC_InitLibrary l 0) in
  mkHeap (fst r) [Call_InitLibrary; Call_CreateGrabber (snd r)] []
         (mkSelf 0 0 0 0 0 0 msgbox CallbackUserdata_init (snd r)).

(** The heap in which the constructor starts. *)
Definition boot (l : Lib) : Heap :=
  mkHeap l [] [] (mkSelf 0 0 0 0 0 0 false CallbackUserdata_init 0).

(** ** A session's life as a sequence of operations

    The caller's thread runs the public methods; the vendor's thread may
    fire the device-lost callback between any two of them, and the library
    state may move on by itself (a frame arrives, a cable is pulled). *)
Inductive Op :=
| Op_read
| Op_open_device (config_file_path : string)
| Op_load_properties (config_file_path : string) (should_open_device : bool)
| Op_start (create_window : bool)
| Op_release
| Op_show_property_dialog
| Op_list_available_properties
| Op_save_properties (file_path : string)
| Op_frameReady
| Op_deviceLost
| Op_vendor (f : Lib -> Lib).

Inductive Value :=
| VNone
| VBool (b : bool)
| VRead (r : ReadResult).

Definition void (m : Py unit) : Py Value := m ;; ret VNone.

Definition run_op (op : Op) : Py Value :=
  match op with
  | Op_read => r <- read ;; ret (VRead r)
  | Op_open_device p => b <- open_device p ;; ret (VBool b)
  | Op_load_properties p b => void (load_properties p b)
  | Op_start w => void (start w)
  | Op_release => void release
  | Op_show_property_dialog => void show_property_dialog
  | Op_list_available_properties => void list_available_properties
  | Op_save_properties p => void (save_properties p)
  | Op_frameReady => void _frameReadyCallback
  | Op_deviceLost => void _deviceLostCallback
  | Op_vendor f =>
      fun s => (Return VNone, mkHeap (f (lib s)) (calls s) (logged s) (self s))
  end.

(** One entry per operation: the heap before, the operation, what it
    returned or raised, the heap after.  A caller may go on after an
    exception, so the run does not stop at one. *)
Record Event := mkEvent {
  before : Heap;
  op_of : Op;
  outcome : Result Value;
  after : Heap
}.

Fixpoint history (ops : list Op) (s : Heap) : list Event :=
  match ops with
  | [] => []
  | op :: rest =>
      let r := run_op op s in
      mkEvent s op (fst r) (snd r) :: history rest (snd r)
  end.

(** The heap [read] is in once its two vendor calls are done, and what the
    vendor answers to them. *)
Definition snapped (s : Heap) : Heap :=
  let h := _hGrabber (self s) in
  let r := IC_SnapImage (lib s) h (-1) in
  mkHeap (fst r) (calls s ++ [Call_SnapImage h (-1) (snd r); Call_GetImagePtr h])
         (logged s) (self s).

Definition snap_status (s : Heap) : Z :=
  snd (IC_SnapImage (lib s) (_hGrabber (self s)) (-1)).

Definition snap_pointer (s : Heap) : option Z :=
  IC_GetImagePtr (fst (IC_SnapImage (lib s) (_hGrabber (self s)) (-1)))
                 (_hGrabber (self s)).

(** ** The methods, step by step *)

(** What [load_properties] logs for a status code of the vendor's load. *)
Definition load_diagnostic (r : Z) : list LogRecord :=
  if (r =? IC_FILE_NOT_FOUND) || (r =? IC_DEVICE_NOT_FOUND)
     || (r =? IC_WRONG_XML_FORMAT) || (r =? IC_WRONG_INCOMPATIBLE_XML)
  then [(ERROR, "Can not load config")]
  else [].

(** The heap after [load_properties]. *)
Definition loaded (config_file_path : string) (should_open_device : bool)
  (s : Heap) : Heap :=
  let h := _hGrabber (self s) in
  let r := IC_LoadDeviceStateFromFileEx (lib s) h (T config_file_path)
             should_open_device in
  mkHeap (fst r)
         (calls s ++ [Call_LoadDeviceStateFromFileEx h (T config_file_path)
                        should_open_device (snd r)])
         (logged s ++ load_diagnostic (snd r)) (self s).

(** The heap after the validity query. *)
Definition queried (s : Heap) : Heap :=
  let h := _hGrabber (self s) in
  mkHeap (lib s) (calls s ++ [Call_IsDevValid h (IC_IsDevValid (lib s) h)])
         (logged s) (self s).

Definition valid (s : Heap) : bool :=
  truthy (IC_IsDevValid (lib s) (_hGrabber (self s))).

(** The heap after [_select_device] has opened the first listed device. *)
Definition opened_by_name (s : Heap) : Heap :=
  let h := _hGrabber (self s) in
  let name := IC_GetUniqueNamefromList (lib s) 0 in
  mkHeap (IC_OpenDevByUniqueName (lib s) h name)
         (calls s ++ [Call_GetDeviceCount (IC_GetDeviceCount (lib s));
                      Call_GetUniqueNamefromList 0;
                      Call_OpenDevByUniqueName h name])
         (logged s) (self s).

(** The heap after [_setup_device] on a device called [b]. *)
Definition set_up (b : string) (s : Heap) : Heap :=
  let h := _hGrabber (self s) in
  mkHeap (IC_SetCallbacks (lib s) h)
         (calls s ++ [Call_GetDeviceName h; Call_SetCallbacks h])
         (logged s)
         (with_userdata (mkUserdata (unsused (userdata (self s)))
                                    (decode_utf8_ignore b) true) (self s)).

(** The heap in which [open_device] asks for the second time whether the
    device is valid, when it went through [_select_device] without the
    dialog. *)
Definition reopened (config_file_path : string) (s : Heap) : Heap :=
  opened_by_name (queried (loaded config_file_path true s)).

(** ** What is assumed of the vendor library *)

(** A grabber that has been released no longer reports a valid device. *)
Definition released_is_invalid : Prop :=
  forall (l : Lib) (h : Z), IC_IsDevValid (IC_ReleaseGrabber l h) h = 0.

(** With no device on the bus, opening by name opens nothing. *)
Definition nothing_to_open : Prop :=
  forall (l : Lib) (h : Z) (name : option string),
    IC_GetDeviceCount l = 0 -> IC_IsDevValid l h = 0 ->
    IC_IsDevValid (IC_OpenDevByUniqueName l h name) h = 0.

(** ** Relations between the heap before and after a computation *)

(** [keeps R m]: whatever [m] returns or raises, it takes a heap to an
    [R]-related one. *)
Definition keeps (R : Heap -> Heap -> Prop) {A : Type} (m : Py A) : Prop :=
  forall s, R s (snd (m s)).

Definition same_userdata (s s' : Heap) : Prop :=
  userdata (self s') = userdata (self s).

(** The call record only grows, and by calls that satisfy [P]. *)
Definition calls_grow (P : Call -> Prop) (s s' : Heap) : Prop :=
  exists new : list Call, calls s' = (calls s ++ new)%list /\ Forall P new.

(** The heap a sequence of operations ends in. *)
Definition run_ops (ops : list Op) (s : Heap) : Heap :=
  fold_left (fun s op => snd (run_op op s)) ops s.

Definition flag (s : Heap) : bool := connected (userdata (self s)).

(** The cached geometry is the one [_get_image_description] computes. *)
Definition described (me : IcCameraControl) : Prop :=
  _channel me = Z.quot (_bits_per_pixel me) 8 /\
  _buffer_size me = _width me * _height me * _bits_per_pixel me.

Definition stays_described (s s' : Heap) : Prop :=
  described (self s) -> described (self s').

(** A dimension as it counts in numpy's size check: zero is skipped. *)
Definition nonzero (d : Z) : Z := if d =? 0 then 1 else d.

(** The cached geometry lets [read] build its array: an admissible ctypes
    length, no negative dimension, non-zero dimensions whose product is an
    [npy_intp], and a buffer that covers the shape. *)
Definition fits (me : IcCameraControl) : Prop :=
  0 <= _buffer_size me <= PY_SSIZE_T_MAX /\
  0 <= _height me /\ 0 <= _width me /\ 0 <= _channel me /\
  nonzero (_height me) * nonzero (_width me) * nonzero (_channel me)
    <= NPY_MAX_INTP /\
  _height me * _width me * _channel me <= _buffer_size me.

(** The frame [read] hands out for an image at [p]: the cached shape over
    the first height x width x channel bytes of memory from [p] on. *)
Definition frame_at (l : Lib) (p : Z) (me : IcCameraControl) : ndarray :=
  mkArray (_height me, _width me, _channel me)
          (map (fun i => peek l (p + Z.of_nat i))
               (seq 0 (Z.to_nat (_height me * _width me * _channel me)))).

(** ** Reading the call record *)

(** The handle a call brings into existence, if it does: [IC_CreateGrabber],
    and the selection dialog when it is given no grabber to fill in. *)
Definition creates (c : Call) : option Z :=
  match c with
  | Call_CreateGrabber h => Some h
  | Call_ShowDeviceSelectionDialog None h => Some h
  | _ => None
  end.

Definition releases (c : Call) : option Z :=
  match c with
  | Call_ReleaseGrabber h => Some h
  | _ => None
  end.

Fixpoint pick {A B : Type} (f : A -> option B) (l : list A) : list B :=
  match l with
  | [] => []
  | a :: l' => match f a with Some b => b :: pick f l' | None => pick f l' end
  end.

Definition created_handles (cs : list Call) : list Z := pick creates cs.
Definition released_handles (cs : list Call) : list Z := pick releases cs.

Definition is_CreateGrabber (c : Call) : bool :=
  match c with Call_CreateGrabber _ => true | _ => false end.

Definition is_selection_dialog (c : Call) : bool :=
  match c with Call_ShowDeviceSelectionDialog _ _ => true | _ => false end.

(** The calls and log records a run added to a heap that had [n] of them. *)
Definition new_calls (s : Heap) (r : Heap) : list Call :=
  skipn (List.length (calls s)) (calls r).

Definition new_logged (s : Heap) (r : Heap) : list LogRecord :=
  skipn (List.length (logged s)) (logged r).

(** The handle is the one the session had, unless the run went through
    the selection dialog. *)
Definition handle_kept_or_dialog (s s' : Heap) : Prop :=
  exists new : list Call,
    calls s' = (calls s ++ new)%list /\
    (_hGrabber (self s') = _hGrabber (self s) \/
     Exists (fun c => is_selection_dialog c = true) new).

Definition not_CreateGrabber (c : Call) : Prop := is_CreateGrabber c = false.

(** A call record in which one handle is created, and that handle is
    released once. *)
Definition one_handle_per_life (cs : list Call) : Prop :=
  exists h, created_handles cs = [h] /\ released_handles cs = [h].

(** What a call of a method brings to its caller's notice: the value or
    exception, and the records it logged. *)
Definition surfaced {A : Type} (s : Heap) (r : Result A * Heap)
  : Result A * list LogRecord :=
  (fst r, new_logged s (snd r)).

(** The caller can tell two calls apart by what they surfaced. *)
Definition tells_apart {A : Type} (s1 : Heap) (r1 : Result A * Heap)
  (s2 : Heap) (r2 : Result A * Heap) : Prop :=
  surfaced s1 r1 <> surfaced s2 r2.

(** A call reports a failure when it raises or logs something. *)
Definition reports_failure {A : Type} (s : Heap) (r : Result A * Heap) : Prop :=
  (exists e, fst r = Raise e) \/ new_logged s (snd r) <> [].

(** The status the vendor gives [load_properties] on a heap. *)
Definition load_status (config_file_path : string) (should_open_device : bool)
  (s : Heap) : Z :=
  snd (IC_LoadDeviceStateFromFileEx (lib s) (_hGrabber (self s))
         (T config_file_path) should_open_device).

(** ** What an operation leaves alone *)

(** A component of the session object is the same before and after. *)
Definition same_field {X : Type} (f : IcCameraControl -> X) (s s' : Heap) : Prop :=
  f (self s') = f (self s).

(** The cached geometry: width, height, bit depth, colour format, channel
    count and buffer size. *)
Definition geometry (me : IcCameraControl) : Z * Z * Z * Z * Z * Z :=
  (_width me, _height me, _bits_per_pixel me, _color_format me,
   _channel me, _buffer_size me).

Definition is_open_device (op : Op) : bool :=
  match op with Op_open_device _ => true | _ => false end.

Definition is_start (op : Op) : bool :=
  match op with Op_start _ => true | _ => false end.

Definition is_release (op : Op) : bool :=
  match op with Op_release => true | _ => false end.

(** The two calls that end a grabber's life. *)
Definition ends_grabber (c : Call) : bool :=
  match c with
  | Call_StopLive _ | Call_ReleaseGrabber _ => true
  | _ => false
  end.

Definition not_ending (c : Call) : Prop := ends_grabber c = false.

(** The calls by which [_select_device] looks for a device. *)
Definition selects_device (c : Call) : bool :=
  match c with
  | Call_GetDeviceCount _ | Call_GetUniqueNamefromList _
  | Call_OpenDevByUniqueName _ _ | Call_ShowDeviceSelectionDialog _ _ => true
  | _ => false
  end.

(** The heap in which [open_device] asks for the second time whether the
    device is valid, when it went through the selection dialog. *)
Definition chosen_in_dialog (config_file_path : string) (s : Heap) : Heap :=
  let s2 := queried (loaded config_file_path true s) in
  let r := IC_ShowDeviceSelectionDialog (lib s2) None in
  mkHeap (fst r)
         (calls s2 ++ [Call_GetDeviceCount (IC_GetDeviceCount (lib s2));
                       Call_ShowDeviceSelectionDialog None (snd r)])
         (logged s2) (with_hGrabber (snd r) (self s2)).

(** The five calls with which the constructor ends: the flip filter, then
    the start of the acquisition and the description of its images. *)
Definition flip_and_start (s : Heap) : list Call :=
  let h := _hGrabber (self s) in
  let f := snd (IC_CreateFrameFilter (lib s) (T "Rotate Flip")) in
  [Call_CreateFrameFilter (T "Rotate Flip") f;
   Call_AddFrameFilterToDevice h f;
   Call_FrameFilterSetParameterBoolean f (T "Flip V") 1;
   Call_StartLive h false;
   Call_GetImageDescription h].

End Wrapper.

(** ** A reference library

    A small executable stand-in for the DLL, built on the object table the
    vendor keeps behind the grabber handles.  It is the concrete library on
    which runs of the wrapper are evaluated. *)
Module Sim.

Record Grabber := mkGrabber {
  dev : option string;   (* unique name of the opened device *)
  live : bool
}.

Record State := mkState {
  next : Z;                        (* next free address *)
  table : list (Z * Grabber);      (* the grabber objects, by handle *)
  devices : list string;           (* unique names of the connected devices *)
  files : list (string * string);  (* device-state files: path, device saved *)
  chosen : option string;          (* what the user picks in the dialog *)
  format : ImageDescription;       (* the video format of the devices *)
  image : option Z;                (* the locked frame; None is NULL *)
  memory : Z -> byte
}.

Definition set_table (t : list (Z * Grabber)) (st : State) : State :=
  mkState (next st) t (devices st) (files st) (chosen st) (format st)
          (image st) (memory st).

Definition set_files (f : list (string * string)) (st : State) : State :=
  mkState (next st) (table st) (devices st) f (chosen st) (format st)
          (image st) (memory st).

Definition set_devices (d : list string) (st : State) : State :=
  mkState (next st) (table st) d (files st) (chosen st) (format st)
          (image st) (memory st).

Definition set_format (d : ImageDescription) (st : State) : State :=
  mkState (next st) (table st) (devices st) (files st) (chosen st) d
          (image st) (memory st).

Definition alloc (st : State) : State * Z :=
  (mkState (next st + 8) (table st) (devices st) (files st) (chosen st)
           (format st) (image st) (memory st), next st).

Fixpoint lookup (h : Z) (t : list (Z * Grabber)) : option Grabber :=
  match t with
  | [] => None
  | (k, g) :: t' => if k =? h then Some g else lookup h t'
  end.

Fixpoint remove (h : Z) (t : list (Z * Grabber)) : list (Z * Grabber) :=
  match t with
  | [] => []
  | (k, g) :: t' => if k =? h then remove h t' else (k, g) :: remove h t'
  end.

Definition update (h : Z) (g : Grabber) (st : State) : State :=
  set_table ((h, g) :: remove h (table st)) st.

Fixpoint assoc (k : string) (l : list (string * string)) : option string :=
  match l with
  | [] => None
  | (k', v) :: l' => if String.eqb k' k then Some v else assoc k l'
  end.

Definition listed (n : string) (st : State) : bool :=
  existsb (String.eqb n) (devices st).

Definition create (st : State) : State * Z :=
  let r := alloc st in
  (set_table ((snd r, mkGrabber None false) :: table (fst r)) (fst r), snd r).

Definition release_grabber (st : State) (h : Z) : State :=
  set_table (remove h (table st)) st.

Definition device_name (st : State) (h : Z) : option string :=
  match lookup h (table st) with
  | Some g => dev g
  | None => None
  end.

Definition is_valid (st : State) (h : Z) : Z :=
  match device_name st h with
  | Some _ => 1
  | None => 0
  end.

Definition device_count (st : State) : Z := Z.of_nat (List.length (devices st)).

Definition unique_name (st : State) (i : Z) : option string :=
  if i <? 0 then None else nth_error (devices st) (Z.to_nat i).

Definition open (st : State) (h : Z) (name : option string) : State :=
  match name, lookup h (table st) with
  | Some n, Some g =>
      if listed n st then update h (mkGrabber (Some n) (live g)) st else st
  | _, _ => st
  end.

Definition dialog (st : State) (arg : option Z) : State * Z :=
  match arg with
  | Some h => (open st h (chosen st), h)
  | None => let r := create st in (open (fst r) (snd r) (chosen st), snd r)
  end.

Definition load (st : State) (h : Z) (path : string) (open_device : bool)
  : State * Z :=
  match assoc path (files st) with
  | None => (st, 35)
  | Some n =>
      if listed n st
      then ((if open_device then open st h (Some n) else st), 1)
      else (st, -5)
  end.

Definition save (st : State) (h : Z) (path : string) : State * Z :=
  match device_name st h with
  | Some n => (set_files ((path, n) :: files st) st, 1)
  | None => (st, 0)
  end.

Definition set_live (b : bool) (st : State) (h : Z) : State :=
  match lookup h (table st) with
  | Some g =>
      match dev g with
      | Some n => update h (mkGrabber (Some n) b) st
      | None => st
      end
  | None => st
  end.

Definition snap (st : State) (h : Z) (timeout : Z) : State * Z :=
  match lookup h (table st) with
  | Some g =>
      match dev g with
      | Some n => (st, if live g && listed n st then 1 else 0)
      | None => (st, 0)
      end
  | None => (st, 0)
  end.

Definition image_ptr (st : State) (h : Z) : option Z :=
  if is_valid st h =? 1 then image st else None.

Definition description (st : State) (h : Z) (d : ImageDescription)
  : ImageDescription :=
  if is_valid st h =? 1 then format st else d.

Definition tisgrabber : TisGrabber := {|
  Lib := State;
  IC_SUCCESS := 1;
  IC_FILE_NOT_FOUND := 35;
  IC_DEVICE_NOT_FOUND := -5;
  IC_WRONG_XML_FORMAT := -1;
  IC_WRONG_INCOMPATIBLE_XML := -3;
  IC_InitLibrary := fun st _ => st;
  IC_CreateGrabber := create;
  IC_ReleaseGrabber := release_grabber;
  IC_IsDevValid := is_valid;
  IC_GetDeviceCount := device_count;
  IC_GetUniqueNamefromList := unique_name;
  IC_OpenDevByUniqueName := open;
  IC_ShowDeviceSelectionDialog := dialog;
  IC_GetDeviceName := device_name;
  IC_SetCallbacks := fun st _ => st;
  IC_LoadDeviceStateFromFileEx := load;
  IC_SaveDeviceStateToFile := save;
  IC_StartLive := fun st h _ => set_live true st h;
  IC_StopLive := set_live false;
  IC_SnapImage := snap;
  IC_GetImagePtr := image_ptr;
  IC_GetImageDescription := description;
  IC_ShowPropertyDialog := fun st _ => st;
  IC_printItemandElementNames := fun st _ => st;
  IC_CreateFrameFilter := fun st _ => alloc st;
  IC_AddFrameFilterToDevice := fun st _ _ => st;
  IC_FrameFilterSetParameterBoolean := fun st _ _ _ => st;
  peek := memory;
  decode_utf8_ignore := fun b => b
|}.

(** A bench: the given cameras on the bus, 2x2 pixels of 24 bits, a frame
    buffer at 0x10000 and an alternating memory pattern. *)
Definition bench (cameras : list string) (choice : option string)
  (frame : option Z) : State :=
  mkState 4096 [] cameras [] choice (mkDesc 2 2 24 0) frame
          (fun a => if Z.even a then x00 else xff).

(** The session built on a bench with the default (empty) configuration
    path. *)
Definition session (cameras : list string) (choice : option string)
  (frame : option Z) : Heap (tis := tisgrabber) :=
  snd (__init__ (tis := tisgrabber) no_path true (boot (tis := tisgrabber)
         (bench cameras choice frame))).

Definition one_camera : Heap (tis := tisgrabber) :=
  session ["DFK 33UX264"] None (Some 65536).

Definition no_camera : Heap (tis := tisgrabber) :=
  session [] None (Some 65536).

(** Two cameras; the user picks the second in the dialog. *)
Definition two_cameras : Heap (tis := tisgrabber) :=
  session ["DFK 33UX264"; "DMK 37BUX252"] (Some "DMK 37BUX252") (Some 65536).

(** One camera whose snap succeeds while the image pointer is NULL. *)
Definition null_frame : Heap (tis := tisgrabber) :=
  session ["DFK 33UX264"] None None.

(** One camera and a device-state file saved from a camera that is gone. *)
Definition stale_file : Heap (tis := tisgrabber) :=
  run_ops (tis := tisgrabber)
    [@Op_vendor tisgrabber (set_files [("old.xml", "DFK 23U618")])]
    one_camera.

(** A camera is plugged in after a session was built without one. *)
Definition plugged_in : Heap (tis := tisgrabber) :=
  run_ops (tis := tisgrabber)
    [@Op_vendor tisgrabber (set_devices ["DFK 33UX264"])] no_camera.

(** The camera is lost, and the callback has run, before the next read. *)
Definition lost_camera : Heap (tis := tisgrabber) :=
  run_ops (tis := tisgrabber) [@Op_deviceLost tisgrabber] one_camera.

(** The whole life of a session: constructed, then released. *)
Definition life (s : Heap (tis := tisgrabber)) : list Call :=
  calls (snd (release (tis := tisgrabber) s)).

(** Two cameras on the bus and a grabber just created: the heap in which
    the constructor calls [open_device]. *)
Definition two_on_bus : Heap (tis := tisgrabber) :=
  constructed (tis := tisgrabber) true
    (bench ["DFK 33UX264"; "DMK 37BUX252"] (Some "DMK 37BUX252") (Some 65536)).

(** One camera, a device-state file saved from it, and a grabber just
    created. *)
Definition with_config : Heap (tis := tisgrabber) :=
  constructed (tis := tisgrabber) true
    (set_files [("camera.xml", "DFK 33UX264")]
       (bench ["DFK 33UX264"] None (Some 65536))).

(** The camera is unplugged: the bus is empty, the grabber still has it. *)
Definition unplugged : Heap (tis := tisgrabber) :=
  run_ops (tis := tisgrabber)
    [@Op_vendor tisgrabber (set_devices []); @Op_deviceLost tisgrabber]
    one_camera.

(** The camera reports a negative bit depth, and the acquisition is
    started again. *)
Definition bad_format : Heap (tis := tisgrabber) :=
  run_ops (tis := tisgrabber)
    [@Op_vendor tisgrabber (set_format (mkDesc 2 2 (-8) 0)); Op_start false]
    one_camera.

End Sim.

(** * Properties *)

Unset Implicit Arguments.

Section Monad_facts.

Context {tis : TisGrabber}.

Lemma bind_Return {A B : Type} (m : Py A) (k : A -> Py B) (s s' : Heap) (a : A) :
  m s = (Return a, s') -> bind m k s = k a s'.
Proof. intros E. cbn. rewrite E. reflexivity. Qed.

Lemma bind_Raise {A B : Type} (m : Py A) (k : A -> Py B) (s s' : Heap) (e : Exn) :
  m s = (Raise e, s') -> bind m k s = (Raise e, s').
Proof. intros E. cbn. rewrite E. reflexivity. Qed.

Lemma bind_ret {A B : Type} (m : Py A) (f : A -> B) (s : Heap) :
  bind m (fun a => ret (f a)) s =
  (match fst (m s) with Return a => Return (f a) | Raise e => Raise e end,
   snd (m s)).
Proof. cbn. destruct (m s) as [[a | e] s1]; reflexivity. Qed.

(** A bind that returns went through both of its halves. *)
Lemma bind_inv {A B : Type} (m : Py A) (k : A -> Py B) (s s' : Heap) (b : B) :
  bind m k s = (Return b, s') ->
  exists a s1, m s = (Return a, s1) /\ k a s1 = (Return b, s').
Proof.
  cbn. destruct (m s) as [[a | e] s1]; intros E.
  - exists a, s1. split; [reflexivity | exact E].
  - discriminate E.
Qed.

End Monad_facts.

Section Frames.

Context {tis : TisGrabber}.

Lemma ctypes_ubyte_array_length (p n : Z) (s s' : Heap) (b : list byte) :
  ctypes_ubyte_array p n s = (Return b, s') ->
  s' = s /\ Z.of_nat (List.length b) = n /\ 0 <= n <= PY_SSIZE_T_MAX.
Proof.
  unfold ctypes_ubyte_array.
  destruct (Z.ltb_spec n (- 2 ^ 63)); [discriminate |].
  destruct (Z.ltb_spec PY_SSIZE_T_MAX n); [discriminate |].
  cbn [orb].
  destruct (Z.ltb_spec n 0); [discriminate |].
  intros E. injection E as <- <-.
  rewrite length_map, length_seq. repeat split; lia.
Qed.

Lemma ctypes_ubyte_array_returns (p n : Z) (s : Heap) :
  0 <= n <= PY_SSIZE_T_MAX ->
  ctypes_ubyte_array p n s =
  (Return (map (fun i => peek (lib s) (p + Z.of_nat i)) (seq 0 (Z.to_nat n))), s).
Proof.
  intros H. unfold ctypes_ubyte_array.
  destruct (Z.ltb_spec n (- 2 ^ 63)); [lia |].
  destruct (Z.ltb_spec PY_SSIZE_T_MAX n); [lia |].
  cbn [orb].
  destruct (Z.ltb_spec n 0); [lia | reflexivity].
Qed.

Lemma nonzero_bounds (d : Z) : 0 <= d -> d <= nonzero d /\ 1 <= nonzero d.
Proof. unfold nonzero. destruct (Z.eqb_spec d 0); lia. Qed.

Lemma wrap_intp_small (z : Z) :
  NPY_MIN_INTP <= z <= NPY_MAX_INTP -> wrap_intp z = z.
Proof.
  unfold NPY_MIN_INTP, NPY_MAX_INTP, wrap_intp. intros H.
  rewrite Z.mod_small; lia.
Qed.

(** The size check of [PyArray_NewFromDescr] on three dimensions. *)
Lemma checked_nbytes_three (d0 d1 d2 n : Z) :
  checked_nbytes 1 [d0; d1; d2] = Some n <->
  0 <= d0 /\ 0 <= d1 /\ 0 <= d2 /\
  n = nonzero d0 * nonzero d1 * nonzero d2 /\ n <= NPY_MAX_INTP.
Proof.
  unfold nonzero. cbn [checked_nbytes].
  destruct (Z.eqb_spec d0 0) as [-> | N0];
    destruct (Z.eqb_spec d1 0) as [-> | N1];
    destruct (Z.eqb_spec d2 0) as [-> | N2];
    repeat match goal with
           | |- context [?x <? ?y] => destruct (Z.ltb_spec x y)
           end;
    unfold NPY_MAX_INTP in *;
    (split; [intros E; try discriminate E; try (injection E as <-);
             repeat split; try lia; try nia
            | intros (G0 & G1 & G2 & -> & Gm); try reflexivity;
              try (f_equal; lia); exfalso; try lia; try nia]);
    repeat match goal with
           | |- context [match ?d with 0 => 0 | Z.pos y => Z.pos y
                                     | Z.neg z => Z.neg z end] =>
               change (match d with 0 => 0 | Z.pos y => Z.pos y
                               | Z.neg z => Z.neg z end) with (1 * d)
           end; try lia; nia.
Qed.

(** On a shape that passes the size check the plain product does not
    wrap. *)
Lemma PyArray_MultiplyList_three (d0 d1 d2 : Z) :
  0 <= d0 -> 0 <= d1 -> 0 <= d2 ->
  nonzero d0 * nonzero d1 * nonzero d2 <= NPY_MAX_INTP ->
  PyArray_MultiplyList [d0; d1; d2] = d0 * d1 * d2.
Proof.
  intros H0 H1 H2 Hm.
  destruct (nonzero_bounds d0 H0) as [L0 P0].
  destruct (nonzero_bounds d1 H1) as [L1 P1].
  destruct (nonzero_bounds d2 H2) as [L2 P2].
  set (n0 := nonzero d0) in *. set (n1 := nonzero d1) in *.
  set (n2 := nonzero d2) in *.
  assert (A1 : 0 <= d0 * d1 <= n0 * n1) by nia.
  assert (A2 : n0 * n1 <= n0 * n1 * n2) by nia.
  assert (A3 : 0 <= d0 * d1 * d2 <= n0 * n1 * n2) by nia.
  assert (A0 : d0 <= n0 * n1) by nia.
  unfold PyArray_MultiplyList. cbn [fold_left].
  rewrite Z.mul_1_l.
  rewrite (wrap_intp_small d0) by (unfold NPY_MIN_INTP, NPY_MAX_INTP in *; lia).
  rewrite (wrap_intp_small (d0 * d1))
    by (unfold NPY_MIN_INTP, NPY_MAX_INTP in *; lia).
  apply wrap_intp_small. unfold NPY_MIN_INTP, NPY_MAX_INTP in *. lia.
Qed.

(** When [np.ndarray] returns. *)
Lemma np_ndarray_returns (b : list byte) (d0 d1 d2 : Z) (s : Heap) :
  0 <= d0 -> 0 <= d1 -> 0 <= d2 ->
  nonzero d0 * nonzero d1 * nonzero d2 <= NPY_MAX_INTP ->
  d0 * d1 * d2 <= Z.of_nat (List.length b) ->
  np_ndarray b d0 d1 d2 s =
  (Return (mkArray (d0, d1, d2) (firstn (Z.to_nat (d0 * d1 * d2)) b)), s).
Proof.
  intros H0 H1 H2 Hm Hb. unfold np_ndarray.
  destruct (nonzero_bounds d0 H0) as [L0 P0].
  destruct (nonzero_bounds d1 H1) as [L1 P1].
  destruct (nonzero_bounds d2 H2) as [L2 P2].
  set (n0 := nonzero d0) in *. set (n1 := nonzero d1) in *.
  set (n2 := nonzero d2) in *.
  assert (Q0 : n0 * 1 <= n0 * n1) by (apply Z.mul_le_mono_nonneg_l; lia).
  assert (Q1 : 1 * n1 <= n0 * n1) by (apply Z.mul_le_mono_nonneg_r; lia).
  assert (Q2 : n0 * n1 * 1 <= n0 * n1 * n2)
    by (apply Z.mul_le_mono_nonneg_l; lia).
  assert (Q3 : 1 * n2 <= n0 * n1 * n2)
    by (apply Z.mul_le_mono_nonneg_r; lia).
  assert (R0 : d0 <= NPY_MAX_INTP) by lia.
  assert (R1 : d1 <= NPY_MAX_INTP) by lia.
  assert (R2 : d2 <= NPY_MAX_INTP) by lia.
  subst n0 n1 n2.
  assert (Rg : existsb (fun d => (d <? NPY_MIN_INTP) || (NPY_MAX_INTP <? d))
                 [d0; d1; d2] = false).
  { cbn [existsb].
    repeat match goal with
           | |- context [?x <? ?y] => destruct (Z.ltb_spec x y)
           end; try reflexivity; unfold NPY_MIN_INTP in *; lia. }
  rewrite Rg, (PyArray_MultiplyList_three d0 d1 d2 H0 H1 H2 Hm).
  destruct (Z.ltb_spec (Z.of_nat (List.length b)) (d0 * d1 * d2)); [lia |].
  assert (C : checked_nbytes 1 [d0; d1; d2] =
              Some (nonzero d0 * nonzero d1 * nonzero d2)).
  { apply checked_nbytes_three. repeat split; assumption. }
  rewrite C. reflexivity.
Qed.

(** What [np.ndarray] has checked when it returns, and what it returns. *)
Lemma np_ndarray_inv (b : list byte) (d0 d1 d2 : Z) (s s' : Heap) (a : ndarray) :
  np_ndarray b d0 d1 d2 s = (Return a, s') ->
  s' = s /\
  a = mkArray (d0, d1, d2) (firstn (Z.to_nat (d0 * d1 * d2)) b) /\
  0 <= d0 /\ 0 <= d1 /\ 0 <= d2 /\
  nonzero d0 * nonzero d1 * nonzero d2 <= NPY_MAX_INTP /\
  d0 * d1 * d2 <= Z.of_nat (List.length b).
Proof.
  unfold np_ndarray.
  destruct (existsb _ _); [discriminate |].
  destruct (Z.ltb_spec (Z.of_nat (List.length b))
              (PyArray_MultiplyList [d0; d1; d2])) as [| Tb]; [discriminate |].
  destruct (checked_nbytes 1 [d0; d1; d2]) as [n |] eqn:C; [| discriminate].
  apply checked_nbytes_three in C as (H0 & H1 & H2 & -> & Hm).
  rewrite (PyArray_MultiplyList_three d0 d1 d2 H0 H1 H2 Hm) in Tb.
  intros E. injection E as <- <-. repeat split; assumption.
Qed.

(** [np.ndarray] never hands out a short array: when it returns, the
    array has exactly as many bytes as its shape has cells. *)
Lemma np_ndarray_exact (b : list byte) (d0 d1 d2 : Z) (s s' : Heap) (a : ndarray) :
  np_ndarray b d0 d1 d2 s = (Return a, s') ->
  s' = s /\ shape a = (d0, d1, d2) /\ nbytes a = d0 * d1 * d2 /\
  0 <= d0 /\ 0 <= d1 /\ 0 <= d2 /\ d0 * d1 * d2 <= Z.of_nat (List.length b).
Proof.
  intros E. apply np_ndarray_inv in E as (-> & -> & H0 & H1 & H2 & _ & Hb).
  unfold nbytes. cbn [shape data]. rewrite length_firstn.
  assert (0 <= d0 * d1 * d2) by nia.
  repeat split; try assumption. lia.
Qed.

(** The first bytes of a run of memory are a shorter run of memory. *)
Lemma firstn_memory (f : nat -> byte) (n m : nat) :
  (n <= m)%nat -> firstn n (map f (seq 0 m)) = map f (seq 0 n).
Proof.
  intros H. rewrite firstn_map. f_equal.
  generalize 0%nat as a. revert m H.
  induction n as [| n IH]; intros m H a; [reflexivity |].
  destruct m as [| m]; [lia |].
  cbn. f_equal. apply IH. lia.
Qed.

End Frames.

Section Read.

Context {tis : TisGrabber}.

Lemma read_failed_snap (s : Heap) :
  snap_status s <> IC_SUCCESS ->
  exists s', read s = (Return (RPair (flag s) None), s') /\ logged s' = logged s.
Proof.
  unfold snap_status. intros H. apply Z.eqb_neq in H.
  unfold read. cbn. rewrite H. eexists. split; reflexivity.
Qed.

Lemma read_null_pointer (s : Heap) :
  snap_status s = IC_SUCCESS -> snap_pointer s = None ->
  read s = (Return RNone,
            mkHeap (lib (snapped s)) (calls (snapped s))
                   (logged s ++ [(WARNING, "No device found.")]) (self s)).
Proof.
  unfold snap_status, snap_pointer, snapped. intros H N.
  unfold read. cbn. rewrite H, Z.eqb_refl. cbn. rewrite N. cbn.
  rewrite <- app_assoc. reflexivity.
Qed.

Lemma read_with_pointer (s : Heap) (p : Z) :
  snap_status s = IC_SUCCESS -> snap_pointer s = Some p ->
  read s =
  bind (ctypes_ubyte_array p (_buffer_size (self s))) (fun image_data =>
    bind (np_ndarray image_data (_height (self s)) (_width (self s))
                     (_channel (self s))) (fun img_array =>
      ret (RPair (flag s) (Some img_array)))) (snapped s).
Proof.
  unfold snap_status, snap_pointer, snapped. intros H N.
  unfold read. cbn. rewrite H, Z.eqb_refl. cbn. rewrite N. cbn.
  rewrite <- app_assoc. cbn.
  destruct (ctypes_ubyte_array _ _ _) as [[b | e] s1] eqn:E1; [| reflexivity].
  apply ctypes_ubyte_array_length in E1 as [-> _].
  destruct (np_ndarray _ _ _ _ _) as [[a | e] s2] eqn:E2; [| reflexivity].
  apply np_ndarray_exact in E2 as [-> _]. reflexivity.
Qed.

(** Whenever [read] returns a pair with a frame, the frame has the cached
    shape and exactly height x width x channel bytes. *)
Lemma read_frame_exact (s s' : Heap) (ok : bool) (frame : ndarray) :
  read s = (Return (RPair ok (Some frame)), s') ->
  ok = flag s /\
  shape frame = (_height (self s), _width (self s), _channel (self s)) /\
  nbytes frame = _width (self s) * _height (self s) * _channel (self s).
Proof.
  intros R.
  destruct (Z.eq_dec (snap_status s) IC_SUCCESS) as [H | H].
  - destruct (snap_pointer s) as [p |] eqn:N.
    + rewrite (read_with_pointer s p H N) in R.
      apply bind_inv in R as (b & s1 & _ & R).
      apply bind_inv in R as (a & s2 & A & R).
      apply np_ndarray_exact in A as (_ & Sh & Nb & _).
      cbn in R. injection R as <- <- _.
      repeat split; [exact Sh | rewrite Nb; ring].
    + rewrite (read_null_pointer s H N) in R. discriminate R.
  - destruct (read_failed_snap s H) as (s1 & R1 & _).
    rewrite R1 in R. discriminate R.
Qed.

End Read.

Section Read_with_pointer.

Context {tis : TisGrabber}.

Lemma frame_at_nbytes (l : Lib) (p : Z) (me : IcCameraControl) :
  0 <= _height me * _width me * _channel me ->
  nbytes (frame_at l p me) = _height me * _width me * _channel me.
Proof.
  intros H. unfold nbytes, frame_at. cbn [data].
  rewrite length_map, length_seq. lia.
Qed.

(** With a pointer to the image and a geometry that fits, [read] returns
    the connected flag and the frame at the pointer. *)
Lemma read_with_pointer_fits (s : Heap) (p : Z) :
  snap_status s = IC_SUCCESS -> snap_pointer s = Some p ->
  fits (self s) ->
  read s =
  (Return (RPair (flag s) (Some (frame_at (lib (snapped s)) p (self s)))),
   snapped s).
Proof.
  intros H N (Hn & Hh & Hw & Hc & Hm & Hfit).
  rewrite (read_with_pointer s p H N).
  rewrite (bind_Return _ _ _ _ _
             (ctypes_ubyte_array_returns p (_buffer_size (self s)) (snapped s) Hn)).
  set (b := map _ _).
  assert (L : Z.of_nat (List.length b) = _buffer_size (self s)).
  { unfold b. rewrite length_map, length_seq. lia. }
  assert (Hb : _height (self s) * _width (self s) * _channel (self s)
               <= Z.of_nat (List.length b)) by lia.
  rewrite (bind_Return _ _ _ _ _
             (np_ndarray_returns b _ _ _ (snapped s) Hh Hw Hc Hm Hb)).
  cbn [ret Monad_Py]. unfold frame_at, b.
  rewrite firstn_memory by lia. reflexivity.
Qed.

(** With a pointer to the image, a [read] that returns found a geometry
    that fits. *)
Lemma read_with_pointer_inv (s s' : Heap) (p : Z) (r : ReadResult) :
  snap_status s = IC_SUCCESS -> snap_pointer s = Some p ->
  read s = (Return r, s') -> fits (self s).
Proof.
  intros H N R. rewrite (read_with_pointer s p H N) in R.
  apply bind_inv in R as (b & s1 & A & R).
  apply bind_inv in R as (a & s2 & B & _).
  apply ctypes_ubyte_array_length in A as (-> & L & Hn).
  apply np_ndarray_inv in B as (_ & _ & Hh & Hw & Hc & Hm & Hfit).
  cbn [self snapped] in *. unfold fits. rewrite L in Hfit. tauto.
Qed.

End Read_with_pointer.

(** ** Proving that a method keeps a relation

    The methods are binds of a few primitives, so a reflexive and
    transitive relation kept by the primitives is kept by the method. *)
Section Keeps.

Context {tis : TisGrabber}.

Variable R : Heap -> Heap -> Prop.
Hypothesis R_refl : forall s, R s s.
Hypothesis R_trans : forall a b c, R a b -> R b c -> R a c.

Lemma keeps_ret {A : Type} (a : A) : keeps R (ret a).
Proof. intros s. apply R_refl. Qed.

Lemma keeps_raise {A : Type} (e : Exn) : keeps R (raise (A := A) e).
Proof. intros s. apply R_refl. Qed.

Lemma keeps_get_self : keeps R get_self.
Proof. intros s. apply R_refl. Qed.

Lemma keeps_bind {A B : Type} (m : Py A) (k : A -> Py B) :
  keeps R m -> (forall a, keeps R (k a)) -> keeps R (bind m k).
Proof.
  intros Hm Hk s. specialize (Hm s). cbn.
  destruct (m s) as [[a | e] s1]; cbn in *.
  - eapply R_trans; [exact Hm | apply Hk].
  - exact Hm.
Qed.

Lemma keeps_ctypes_ubyte_array (p n : Z) : keeps R (ctypes_ubyte_array p n).
Proof.
  intros s. unfold ctypes_ubyte_array.
  destruct ((n <? - 2 ^ 63) || (PY_SSIZE_T_MAX <? n)); [apply R_refl |].
  destruct (n <? 0); apply R_refl.
Qed.

Lemma keeps_np_ndarray (b : list byte) (d0 d1 d2 : Z) : keeps R (np_ndarray b d0 d1 d2).
Proof.
  unfold np_ndarray.
  destruct (existsb _ _); [apply keeps_raise |].
  destruct (Z.of_nat (List.length b) <? PyArray_MultiplyList [d0; d1; d2]);
    [apply keeps_raise |].
  destruct (checked_nbytes 1 [d0; d1; d2]); [apply keeps_ret | apply keeps_raise].
Qed.

End Keeps.

(** Splits a goal [keeps R m] along the binds and branches of [m]; what
    is left (the primitives, and that [R] is a preorder) goes to [prims]. *)
Ltac keeps_step prims :=
  first
  [ solve [prims]
  | lazymatch goal with
    | |- keeps _ (bind _ _) => apply keeps_bind; [solve [prims] | | intro]
    | |- keeps _ (ret _) => apply keeps_ret; solve [prims]
    | |- keeps _ (raise _) => apply keeps_raise; solve [prims]
    | |- keeps _ get_self => apply keeps_get_self; solve [prims]
    | |- keeps _ (ctypes_ubyte_array _ _) =>
        apply keeps_ctypes_ubyte_array; solve [prims]
    | |- keeps _ (np_ndarray _ _ _ _) => apply keeps_np_ndarray; solve [prims]
    | |- keeps _ (if ?b then _ else _) => destruct b
    | |- keeps _ (match ?o with Some _ => _ | None => _ end) => destruct o
    end ].

Ltac keeps_all prims := repeat (keeps_step prims).

(** ** The callback record is touched in two places only *)
Section Userdata.

Context {tis : TisGrabber}.

Lemma same_userdata_refl (s : Heap) : same_userdata s s.
Proof. reflexivity. Qed.

Lemma same_userdata_trans (a b c : Heap) :
  same_userdata a b -> same_userdata b c -> same_userdata a c.
Proof. unfold same_userdata. congruence. Qed.

Lemma same_userdata_log (lv : Level) (msg : string) : keeps same_userdata (log lv msg).
Proof. intros s. reflexivity. Qed.

Lemma same_userdata_ffi {A : Type} (f : Lib -> Lib * A) (ev : A -> Call) :
  keeps same_userdata (ffi f ev).
Proof. intros s. reflexivity. Qed.

Lemma same_userdata_ffi_ (f : Lib -> Lib) (ev : Call) : keeps same_userdata (ffi_ f ev).
Proof. intros s. reflexivity. Qed.

Lemma same_userdata_ffi_query {A : Type} (f : Lib -> A) (ev : A -> Call) :
  keeps same_userdata (ffi_query f ev).
Proof. intros s. reflexivity. Qed.

Lemma same_userdata_set_self (f : IcCameraControl -> IcCameraControl) :
  (forall me, userdata (f me) = userdata me) -> keeps same_userdata (set_self f).
Proof. intros H s. apply H. Qed.

End Userdata.

Create HintDb userdata_db.

#[export] Hint Resolve same_userdata_refl same_userdata_trans same_userdata_log
  same_userdata_ffi same_userdata_ffi_ same_userdata_ffi_query
  same_userdata_set_self : userdata_db.
#[export] Hint Extern 1 (userdata _ = userdata _) => reflexivity : userdata_db.

Ltac userdata_kept := keeps_all ltac:(eauto with userdata_db).

Section Userdata_methods.

Context {tis : TisGrabber}.

Lemma read_same_userdata : keeps same_userdata read.
Proof. unfold read. userdata_kept. Qed.

Lemma load_properties_same_userdata (p : string) (b : bool) :
  keeps same_userdata (load_properties p b).
Proof. unfold load_properties. userdata_kept. Qed.

Lemma is_dev_valid_same_userdata : keeps same_userdata is_dev_valid.
Proof. unfold is_dev_valid. userdata_kept. Qed.

Lemma _select_device_same_userdata : keeps same_userdata _select_device.
Proof. unfold _select_device. userdata_kept. Qed.

Lemma start_same_userdata (w : bool) : keeps same_userdata (start w).
Proof. unfold start, _get_image_description. userdata_kept. Qed.

Lemma release_same_userdata : keeps same_userdata release.
Proof.
  unfold release.
  apply keeps_bind; [eauto with userdata_db | apply is_dev_valid_same_userdata |].
  intro. userdata_kept.
Qed.

Lemma show_property_dialog_same_userdata : keeps same_userdata show_property_dialog.
Proof. unfold show_property_dialog. userdata_kept. Qed.

Lemma list_available_properties_same_userdata :
  keeps same_userdata list_available_properties.
Proof. unfold list_available_properties. userdata_kept. Qed.

Lemma save_properties_same_userdata (p : string) :
  keeps same_userdata (save_properties p).
Proof. unfold save_properties. userdata_kept. Qed.

End Userdata_methods.

#[export] Hint Resolve read_same_userdata load_properties_same_userdata
  is_dev_valid_same_userdata _select_device_same_userdata start_same_userdata
  release_same_userdata show_property_dialog_same_userdata
  list_available_properties_same_userdata save_properties_same_userdata
  : userdata_db.

Section Connected_flag.

Context {tis : TisGrabber}.

(** A computation that starts with a part that leaves the callback record
    alone either leaves it alone as a whole, or ends as its second part. *)
Lemma same_userdata_or_bind {A B : Type} (m : Py A) (k : A -> Py B)
  (Q : Result B -> Prop) :
  keeps same_userdata m ->
  (forall a s1, Q (fst (k a s1)) \/ same_userdata s1 (snd (k a s1))) ->
  forall s, Q (fst (bind m k s)) \/ same_userdata s (snd (bind m k s)).
Proof.
  intros Hm Hk s. specialize (Hm s). cbn.
  destruct (m s) as [[a | e] s1]; cbn in *.
  - destruct (Hk a s1) as [HQ | HR]; [left; exact HQ |].
    right. eapply same_userdata_trans; eassumption.
  - right. exact Hm.
Qed.

(** [open_device] writes the record only on the way to returning [True]. *)
Lemma open_device_userdata (p : string) (s : Heap) :
  fst (open_device p s) = Return true \/ same_userdata s (snd (open_device p s)).
Proof.
  unfold open_device.
  pose (Q := fun r : Result bool => r = Return true).
  revert s.
  apply (same_userdata_or_bind _ _ Q); [eauto with userdata_db | intros _ s1].
  revert s1.
  apply (same_userdata_or_bind _ _ Q); [eauto with userdata_db | intros valid s2].
  revert s2.
  apply (same_userdata_or_bind _ _ Q); [userdata_kept | intros _ s3].
  revert s3.
  apply (same_userdata_or_bind _ _ Q); [eauto with userdata_db | intros valid' s4].
  unfold Q.
  destruct valid'.
  - unfold _setup_device. cbn.
    destruct (IC_GetDeviceName (lib s4) (_hGrabber (self s4))) as [b |]; cbn.
    + left. reflexivity.
    + right. reflexivity.
  - right. reflexivity.
Qed.

Lemma _deviceLostCallback_clears (s : Heap) :
  fst (_deviceLostCallback s) = Return tt /\
  flag (snd (_deviceLostCallback s)) = false /\
  lib (snd (_deviceLostCallback s)) = lib s /\
  calls (snd (_deviceLostCallback s)) = calls s.
Proof. repeat split. Qed.

Lemma void_same_userdata (m : Py unit) :
  keeps same_userdata m -> keeps same_userdata (void m).
Proof. intros H. unfold void. userdata_kept. Qed.

(** One operation: the flag rises only in an [open_device] that returns
    [True]. *)
Lemma run_op_raises_flag (op : Op) (s : Heap) :
  flag s = false -> flag (snd (run_op op s)) = true ->
  exists p, op = Op_open_device p /\ fst (run_op op s) = Return (VBool true).
Proof.
  intros F0 F1.
  assert (K : forall m : Py Value, keeps same_userdata m ->
              flag (snd (m s)) = true -> False).
  { intros m Hm F. specialize (Hm s). unfold flag, same_userdata in *.
    rewrite Hm in F. congruence. }
  destruct op; cbn [run_op] in F1;
    try (exfalso; revert F1; apply K;
         first [apply void_same_userdata; eauto with userdata_db
               | userdata_kept]; fail).
  - exists config_file_path. split; [reflexivity |].
    cbn [run_op]. rewrite bind_ret in *.
    destruct (open_device_userdata config_file_path s) as [T1 | Same].
    + cbn [fst]. rewrite T1. reflexivity.
    + cbn [snd] in F1. unfold flag, same_userdata in *.
      rewrite Same in F1. congruence.
  - exfalso. unfold flag in *. cbn in F1. discriminate F1.
  - exfalso. unfold flag in *. cbn in F1. congruence.
Qed.

End Connected_flag.

(** ** The cached geometry is written by [start] only *)
Section Geometry.

Context {tis : TisGrabber}.

Lemma stays_described_refl (s : Heap) : stays_described s s.
Proof. intros H. exact H. Qed.

Lemma stays_described_trans (a b c : Heap) :
  stays_described a b -> stays_described b c -> stays_described a c.
Proof. unfold stays_described. auto. Qed.

Lemma stays_described_log (lv : Level) (msg : string) :
  keeps stays_described (log lv msg).
Proof. intros s H. exact H. Qed.

Lemma stays_described_ffi {A : Type} (f : Lib -> Lib * A) (ev : A -> Call) :
  keeps stays_described (ffi f ev).
Proof. intros s H. exact H. Qed.

Lemma stays_described_ffi_ (f : Lib -> Lib) (ev : Call) :
  keeps stays_described (ffi_ f ev).
Proof. intros s H. exact H. Qed.

Lemma stays_described_ffi_query {A : Type} (f : Lib -> A) (ev : A -> Call) :
  keeps stays_described (ffi_query f ev).
Proof. intros s H. exact H. Qed.

Lemma stays_described_set_self (f : IcCameraControl -> IcCameraControl) :
  (forall me, described me -> described (f me)) ->
  keeps stays_described (set_self f).
Proof. intros H s D. apply (H (self s) D). Qed.

(** [_get_image_description] leaves the channel count and the buffer size
    computed from the description it has just read. *)
Lemma _get_image_description_described (s : Heap) :
  fst (_get_image_description s) = Return tt /\
  described (self (snd (_get_image_description s))).
Proof. split; [reflexivity | split; reflexivity]. Qed.

Lemma start_described (create_window : bool) (s : Heap) :
  fst (start create_window s) = Return tt /\
  described (self (snd (start create_window s))).
Proof. split; [reflexivity | split; reflexivity]. Qed.

Lemma start_stays_described (w : bool) : keeps stays_described (start w).
Proof. intros s _. apply start_described. Qed.

End Geometry.

Create HintDb geometry_db.

#[export] Hint Resolve stays_described_refl stays_described_trans
  stays_described_log stays_described_ffi stays_described_ffi_
  stays_described_ffi_query stays_described_set_self start_stays_described
  : geometry_db.
#[export] Hint Extern 1 (described _ -> described _) =>
  let H := fresh in intros H; exact H : geometry_db.

Ltac geometry_kept := keeps_all ltac:(eauto with geometry_db).

Section Geometry_methods.

Context {tis : TisGrabber}.

Lemma run_op_stays_described (op : Op) : keeps stays_described (run_op op).
Proof.
  destruct op; cbn [run_op];
    unfold void, read, open_device, load_properties, release, is_dev_valid,
      _select_device, _setup_device, _handle_device_open_error,
      show_property_dialog, list_available_properties, save_properties,
      _frameReadyCallback, _deviceLostCallback;
    try (geometry_kept; fail).
  intros s H. exact H.
Qed.

Lemma run_ops_described (ops : list Op) (s : Heap) :
  described (self s) -> described (self (run_ops ops s)).
Proof.
  revert s. induction ops as [| op ops IH]; intros s H; cbn.
  - exact H.
  - apply IH. apply (run_op_stays_described op s H).
Qed.

End Geometry_methods.

(** ** The methods as equations *)
Section Equations.

Context {tis : TisGrabber}.

Lemma load_properties_eq (p : string) (b : bool) (s : Heap) :
  load_properties p b s = (Return tt, loaded p b s).
Proof.
  unfold load_properties, loaded, load_diagnostic. cbn.
  destruct (_ || _); cbn; [reflexivity |].
  rewrite app_nil_r. reflexivity.
Qed.

Lemma is_dev_valid_eq (s : Heap) : is_dev_valid s = (Return (valid s), queried s).
Proof. reflexivity. Qed.

Lemma _select_device_by_name (s : Heap) :
  IC_GetDeviceCount (lib s) <= 1 ->
  _select_device s = (Return (_hGrabber (self s)), opened_by_name s).
Proof.
  intros H. unfold _select_device, opened_by_name. cbn.
  destruct (Z.gtb_spec (IC_GetDeviceCount (lib s)) 1); [lia |].
  unfold ffi_, ffi. cbn. repeat rewrite <- app_assoc. reflexivity.
Qed.

Lemma _select_device_by_dialog (s : Heap) :
  1 < IC_GetDeviceCount (lib s) ->
  let r := IC_ShowDeviceSelectionDialog (lib s) None in
  _select_device s =
  (Return (snd r),
   mkHeap (fst r)
          (calls s ++ [Call_GetDeviceCount (IC_GetDeviceCount (lib s));
                       Call_ShowDeviceSelectionDialog None (snd r)])
          (logged s) (self s)).
Proof.
  intros H. unfold _select_device. cbn.
  destruct (Z.gtb_spec (IC_GetDeviceCount (lib s)) 1); [| lia].
  unfold ffi. cbn. repeat rewrite <- app_assoc. reflexivity.
Qed.

Lemma _setup_device_named (b : string) (s : Heap) :
  IC_GetDeviceName (lib s) (_hGrabber (self s)) = Some b ->
  _setup_device s = (Return tt, set_up b s).
Proof.
  intros H. unfold _setup_device, set_up. cbn. rewrite H.
  unfold ffi_, ffi. cbn. repeat rewrite <- app_assoc. reflexivity.
Qed.

Lemma release_eq (s : Heap) :
  let h := _hGrabber (self s) in
  release s =
  (Return tt,
   if valid s
   then mkHeap (IC_ReleaseGrabber (IC_StopLive (lib s) h) h)
               (calls s ++ [Call_IsDevValid h (IC_IsDevValid (lib s) h);
                            Call_StopLive h; Call_ReleaseGrabber h])
               (logged s) (self s)
   else queried s).
Proof.
  unfold release. cbn. fold (valid s).
  destruct (valid s); unfold ffi_, ffi; cbn; [| reflexivity].
  repeat rewrite <- app_assoc. reflexivity.
Qed.

Lemma save_properties_eq (p : string) (s : Heap) :
  let h := _hGrabber (self s) in
  let r := IC_SaveDeviceStateToFile (lib s) h (T p) in
  save_properties p s =
  (Return tt,
   mkHeap (fst r) (calls s ++ [Call_SaveDeviceStateToFile h (T p) (snd r)])
          (logged s) (self s)).
Proof. reflexivity. Qed.

Lemma skipn_app_length {A : Type} (l new : list A) :
  skipn (List.length l) (l ++ new) = new.
Proof. induction l as [| a l IH]; [reflexivity | exact IH]. Qed.

End Equations.

(** Runs the first half of a bind by a known equation. *)
Ltac step_by E := rewrite (bind_Return _ _ _ _ _ E).

Section Open_device.

Context {tis : TisGrabber}.

Lemma with_hGrabber_same (me : IcCameraControl) :
  with_hGrabber (_hGrabber me) me = me.
Proof. destruct me. reflexivity. Qed.

(** The block of [open_device] that selects a device and stores the handle,
    when at most one device is listed: the handle is stored back as it was. *)
Lemma reselect_by_name (s : Heap) :
  IC_GetDeviceCount (lib s) <= 1 ->
  bind _select_device (fun h => set_self (with_hGrabber h)) s =
  (Return tt, opened_by_name s).
Proof.
  intros H. step_by (_select_device_by_name s H).
  unfold set_self, opened_by_name. cbn.
  rewrite with_hGrabber_same. reflexivity.
Qed.

Lemma open_device_by_name (p : string) (s : Heap) :
  valid (loaded p true s) = false ->
  IC_GetDeviceCount (lib (loaded p true s)) <= 1 ->
  open_device p s =
  if valid (reopened p s)
  then bind _setup_device (fun _ =>
         bind get_self (fun me =>
           bind (log INFO ("Device " ++ devicename (userdata me) ++ " open"))
                (fun _ => ret true))) (queried (reopened p s))
  else (Return false,
        mkHeap (lib (reopened p s)) (calls (queried (reopened p s)))
               (logged (reopened p s) ++ [(INFO, "No device opened")])
               (self s)).
Proof.
  intros V C. unfold open_device.
  step_by (load_properties_eq p true s).
  step_by (is_dev_valid_eq (loaded p true s)).
  rewrite V. cbn [negb].
  step_by (reselect_by_name (queried (loaded p true s)) C).
  fold (reopened p s).
  step_by (is_dev_valid_eq (reopened p s)).
  destruct (valid (reopened p s)); reflexivity.
Qed.

End Open_device.

(** ** The call record *)
Section Call_record.

Context {tis : TisGrabber}.

Variable P : Call -> Prop.

Lemma calls_grow_refl (s : Heap) : calls_grow P s s.
Proof. exists []. split; [symmetry; apply app_nil_r | constructor]. Qed.

Lemma calls_grow_trans (a b c : Heap) :
  calls_grow P a b -> calls_grow P b c -> calls_grow P a c.
Proof.
  intros (n1 & E1 & F1) (n2 & E2 & F2). exists (n1 ++ n2)%list. split.
  - rewrite E2, E1. symmetry. apply app_assoc.
  - apply Forall_app. split; assumption.
Qed.

Lemma calls_grow_same (s s' : Heap) : calls s' = calls s -> calls_grow P s s'.
Proof. intros E. exists []. split; [rewrite E; symmetry; apply app_nil_r | constructor]. Qed.

Lemma calls_grow_log (lv : Level) (msg : string) : keeps (calls_grow P) (log lv msg).
Proof. intros s. apply calls_grow_same. reflexivity. Qed.

Lemma calls_grow_set_self (f : IcCameraControl -> IcCameraControl) :
  keeps (calls_grow P) (set_self f).
Proof. intros s. apply calls_grow_same. reflexivity. Qed.

Lemma calls_grow_ffi {A : Type} (f : Lib -> Lib * A) (ev : A -> Call) :
  (forall a, P (ev a)) -> keeps (calls_grow P) (ffi f ev).
Proof.
  intros H s. exists [ev (snd (f (lib s)))]. split; [reflexivity |].
  constructor; [apply H | constructor].
Qed.

Lemma calls_grow_ffi_ (f : Lib -> Lib) (ev : Call) :
  P ev -> keeps (calls_grow P) (ffi_ f ev).
Proof. intros H. apply calls_grow_ffi. intros _. exact H. Qed.

Lemma calls_grow_ffi_query {A : Type} (f : Lib -> A) (ev : A -> Call) :
  (forall a, P (ev a)) -> keeps (calls_grow P) (ffi_query f ev).
Proof. intros H. apply calls_grow_ffi. exact H. Qed.

Lemma calls_grow_new (s s' : Heap) :
  calls_grow P s s' -> calls s' = (calls s ++ new_calls s s')%list /\
  Forall P (new_calls s s').
Proof.
  intros (new & E & F). unfold new_calls. rewrite E, skipn_app_length.
  split; [reflexivity | exact F].
Qed.

End Call_record.

Create HintDb calls_db.

#[export] Hint Resolve calls_grow_refl calls_grow_trans calls_grow_log
  calls_grow_set_self calls_grow_ffi calls_grow_ffi_ calls_grow_ffi_query
  : calls_db.
#[export] Hint Extern 1 (not_CreateGrabber _) => reflexivity : calls_db.

Ltac calls_kept := keeps_all ltac:(eauto with calls_db).

Section Creation.

Context {tis : TisGrabber}.

Lemma open_device_no_CreateGrabber (p : string) :
  keeps (calls_grow not_CreateGrabber) (open_device p).
Proof.
  unfold open_device, load_properties, is_dev_valid, _select_device,
    _setup_device, _handle_device_open_error.
  calls_kept.
Qed.

Lemma start_no_CreateGrabber (w : bool) :
  keeps (calls_grow not_CreateGrabber) (start w).
Proof. unfold start, _get_image_description. calls_kept. Qed.

Lemma _flip_image_no_CreateGrabber :
  keeps (calls_grow not_CreateGrabber) _flip_image.
Proof. unfold _flip_image. calls_kept. Qed.

Lemma run_op_no_CreateGrabber (op : Op) :
  keeps (calls_grow not_CreateGrabber) (run_op op).
Proof.
  destruct op; cbn [run_op];
    try (unfold void; apply keeps_bind;
         [apply calls_grow_trans
         | first [apply open_device_no_CreateGrabber
                 | apply start_no_CreateGrabber | idtac]
         | intro; apply keeps_ret; apply calls_grow_refl];
         unfold read, load_properties, release, is_dev_valid,
           show_property_dialog, list_available_properties, save_properties,
           _frameReadyCallback, _deviceLostCallback;
         calls_kept; fail).
  intros s. apply calls_grow_same. reflexivity.
Qed.

Lemma run_ops_no_CreateGrabber (ops : list Op) (s : Heap) :
  calls_grow not_CreateGrabber s (run_ops ops s).
Proof.
  revert s. induction ops as [| op ops IH]; intros s; cbn.
  - apply calls_grow_refl.
  - eapply calls_grow_trans; [apply (run_op_no_CreateGrabber op s) | apply IH].
Qed.

Lemma filter_not_CreateGrabber (cs : list Call) :
  Forall not_CreateGrabber cs -> filter is_CreateGrabber cs = [].
Proof.
  induction 1 as [| c cs Hc _ IH]; [reflexivity |].
  cbn. rewrite Hc. exact IH.
Qed.

Lemma __init___eq (p : string) (b : bool) (l : Lib) :
  __init__ p b (boot l) =
  bind (open_device p) (fun _ => bind _flip_image (fun _ => start false))
       (constructed b l).
Proof. reflexivity. Qed.

(** The constructor calls [IC_CreateGrabber] once. *)
Lemma __init___creates_once (p : string) (b : bool) (l : Lib) :
  filter is_CreateGrabber (calls (snd (__init__ p b (boot l)))) =
  [Call_CreateGrabber (snd (IC_CreateGrabber (IC_InitLibrary l 0)))].
Proof.
  rewrite __init___eq.
  set (rest := bind (open_device p) (fun _ => bind _flip_image (fun _ => start false))).
  assert (K : keeps (calls_grow not_CreateGrabber) rest).
  { unfold rest.
    apply keeps_bind; [apply calls_grow_trans | apply open_device_no_CreateGrabber |].
    intros _.
    apply keeps_bind; [apply calls_grow_trans | apply _flip_image_no_CreateGrabber |].
    intros _. apply start_no_CreateGrabber. }
  destruct (K (constructed b l)) as (new & Ec & F). rewrite Ec.
  unfold constructed. cbn [calls].
  rewrite filter_app, (filter_not_CreateGrabber new F). reflexivity.
Qed.

End Creation.

(** ** The handle changes in the selection dialog only *)
Section Handle.

Context {tis : TisGrabber}.

Lemma handle_kept_same (s s' : Heap) (new : list Call) :
  calls s' = (calls s ++ new)%list ->
  _hGrabber (self s') = _hGrabber (self s) ->
  handle_kept_or_dialog s s'.
Proof. intros E H. exists new. split; [exact E | left; exact H]. Qed.

Lemma handle_kept_refl (s : Heap) : handle_kept_or_dialog s s.
Proof. apply (handle_kept_same s s []); [symmetry; apply app_nil_r | reflexivity]. Qed.

Lemma handle_kept_trans (a b c : Heap) :
  handle_kept_or_dialog a b -> handle_kept_or_dialog b c ->
  handle_kept_or_dialog a c.
Proof.
  intros (n1 & E1 & H1) (n2 & E2 & H2). exists (n1 ++ n2)%list. split.
  - rewrite E2, E1. symmetry. apply app_assoc.
  - destruct H1 as [H1 | H1].
    + destruct H2 as [H2 | H2].
      * left. congruence.
      * right. apply Exists_app. right. exact H2.
    + right. apply Exists_app. left. exact H1.
Qed.

Lemma handle_kept_log (lv : Level) (msg : string) :
  keeps handle_kept_or_dialog (log lv msg).
Proof.
  intros s. apply (handle_kept_same _ _ []); [symmetry; apply app_nil_r | reflexivity].
Qed.

Lemma handle_kept_set_self (f : IcCameraControl -> IcCameraControl) :
  (forall me, _hGrabber (f me) = _hGrabber me) ->
  keeps handle_kept_or_dialog (set_self f).
Proof.
  intros H s. apply (handle_kept_same _ _ []); [symmetry; apply app_nil_r | apply H].
Qed.

Lemma handle_kept_ffi {A : Type} (f : Lib -> Lib * A) (ev : A -> Call) :
  keeps handle_kept_or_dialog (ffi f ev).
Proof.
  intros s. apply (handle_kept_same _ _ [ev (snd (f (lib s)))]); reflexivity.
Qed.

Lemma handle_kept_ffi_ (f : Lib -> Lib) (ev : Call) :
  keeps handle_kept_or_dialog (ffi_ f ev).
Proof. apply handle_kept_ffi. Qed.

Lemma handle_kept_ffi_query {A : Type} (f : Lib -> A) (ev : A -> Call) :
  keeps handle_kept_or_dialog (ffi_query f ev).
Proof. apply handle_kept_ffi. Qed.

(** Selecting a device and storing what [_select_device] returns: either
    the session's own handle comes back, or the dialog was shown. *)
Lemma handle_kept_reselect :
  keeps handle_kept_or_dialog
        (bind _select_device (fun h => set_self (with_hGrabber h))).
Proof.
  intros s.
  destruct (Z_le_gt_dec (IC_GetDeviceCount (lib s)) 1) as [C | C].
  - rewrite (reselect_by_name s C). cbn [snd].
    eapply handle_kept_same; reflexivity.
  - assert (C' : 1 < IC_GetDeviceCount (lib s)) by lia.
    step_by (_select_device_by_dialog s C').
    set (r := IC_ShowDeviceSelectionDialog (lib s) None).
    exists [Call_GetDeviceCount (IC_GetDeviceCount (lib s));
            Call_ShowDeviceSelectionDialog None (snd r)].
    split; [reflexivity |].
    right. apply Exists_cons_tl. apply Exists_cons_hd. reflexivity.
Qed.

End Handle.

Create HintDb handle_db.

#[export] Hint Resolve handle_kept_refl handle_kept_trans handle_kept_log
  handle_kept_set_self handle_kept_ffi handle_kept_ffi_ handle_kept_ffi_query
  handle_kept_reselect : handle_db.
#[export] Hint Extern 1 (_hGrabber _ = _hGrabber _) => reflexivity : handle_db.

Ltac handle_kept := keeps_all ltac:(eauto with handle_db).

Section Handle_methods.

Context {tis : TisGrabber}.

Lemma open_device_handle_kept (p : string) :
  keeps handle_kept_or_dialog (open_device p).
Proof.
  unfold open_device, load_properties, is_dev_valid, _setup_device,
    _handle_device_open_error.
  handle_kept.
Qed.

Lemma Exists_Forall_false {A : Type} (f : A -> bool) (l : list A) :
  Exists (fun a => f a = true) l -> Forall (fun a => f a = false) l -> False.
Proof.
  induction 1 as [a l Ha | a l _ IH]; intros F; inversion F; subst.
  - congruence.
  - auto.
Qed.

Lemma open_device_without_dialog (p : string) (s : Heap) :
  Forall (fun c => is_selection_dialog c = false)
         (new_calls s (snd (open_device p s))) ->
  _hGrabber (self (snd (open_device p s))) = _hGrabber (self s).
Proof.
  intros F.
  destruct (open_device_handle_kept p s) as (new & E & [H | D]); [exact H |].
  exfalso. unfold new_calls in F. rewrite E, skipn_app_length in F.
  exact (Exists_Forall_false _ _ D F).
Qed.

End Handle_methods.

(** ** The reference library meets the assumptions *)
Section Sim_facts.

Lemma Sim_lookup_remove (h : Z) (t : list (Z * Sim.Grabber)) :
  Sim.lookup h (Sim.remove h t) = None.
Proof.
  induction t as [| [k g] t IH]; [reflexivity |].
  cbn. destruct (Z.eqb_spec k h) as [E | N]; [exact IH |].
  cbn. destruct (Z.eqb_spec k h); [contradiction | exact IH].
Qed.

Lemma Sim_released_is_invalid : released_is_invalid (tis := Sim.tisgrabber).
Proof.
  intros l h. cbn. unfold Sim.is_valid, Sim.device_name, Sim.release_grabber. cbn.
  rewrite Sim_lookup_remove. reflexivity.
Qed.

Lemma Sim_nothing_to_open : nothing_to_open (tis := Sim.tisgrabber).
Proof.
  intros l h name C V. cbn in *. unfold Sim.open.
  destruct name as [n |]; [| exact V].
  destruct (Sim.lookup h (Sim.table l)) as [g |] eqn:L; [| exact V].
  unfold Sim.listed, Sim.device_count in *.
  destruct (Sim.devices l); [exact V | cbn in C; lia].
Qed.

End Sim_facts.

(** * The properties of the specification *)

Section Frame_retrieval.

Context {tis : TisGrabber}.

(** C1: once [start] has run, and whatever operations follow it, a [read]
    that returns [(True, frame)] returns a frame of exactly
    width x height x channel bytes, of shape (height, width, channel),
    where the channel count is the cached bits-per-pixel divided by 8. *)
Theorem read_frame_has_cached_size (create_window : bool) (s0 : Heap)
  (ops : list Op) (frame : ndarray) :
  let s := run_ops ops (snd (start create_window s0)) in
  fst (read s) = Return (RPair true (Some frame)) ->
  _channel (self s) = Z.quot (_bits_per_pixel (self s)) 8 /\
  nbytes frame = _width (self s) * _height (self s) * _channel (self s) /\
  shape frame = (_height (self s), _width (self s), _channel (self s)).
Proof.
  intros s R.
  assert (D : described (self s)).
  { apply run_ops_described. apply start_described. }
  destruct (read s) as [r s'] eqn:E. cbn in R. subst r.
  destruct (read_frame_exact s s' true frame E) as (_ & Sh & Nb).
  destruct D as [Ch _]. auto.
Qed.

(** C3 (what the code does): when the snap succeeds and the image pointer
    is NULL, [read] logs the warning and then falls off its end: the caller
    gets Python's [None], not a pair. *)
Theorem read_null_pointer_returns_None (s : Heap) :
  snap_status s = IC_SUCCESS -> snap_pointer s = None ->
  fst (read s) = Return RNone /\
  new_logged s (snd (read s)) = [(WARNING, "No device found.")] /\
  forall ok img, fst (read s) <> Return (RPair ok img).
Proof.
  intros H N. rewrite (read_null_pointer s H N). cbn [fst snd].
  repeat split.
  - unfold new_logged. cbn [logged]. apply skipn_app_length.
  - discriminate.
Qed.

(** C10: when the snap succeeds and the image pointer is not NULL, a
    [read] that returns hands back the pair of the current connected flag,
    not the constant [True], and the frame at the pointer (the cached
    shape over that many bytes of the image), after its two vendor calls;
    it does return whenever the cached geometry fits; and the flag is
    [False] once the device-lost callback has run, so that [read] then
    returns [(False, frame)]. *)
Theorem read_returns_connected_flag (s : Heap) (p : Z) :
  snap_status s = IC_SUCCESS -> snap_pointer s = Some p ->
  let frame := frame_at (lib (snapped s)) p (self s) in
  (forall r s', read s = (Return r, s') ->
     r = RPair (flag s) (Some frame) /\ s' = snapped s) /\
  (fits (self s) ->
     read s = (Return (RPair (flag s) (Some frame)), snapped s) /\
     nbytes frame = _height (self s) * _width (self s) * _channel (self s)) /\
  (forall s0, s = snd (_deviceLostCallback s0) -> flag s = false).
Proof.
  intros H N frame. split; [| split].
  - intros r s' R.
    pose proof (read_with_pointer_inv s s' p r H N R) as F.
    rewrite (read_with_pointer_fits s p H N F) in R.
    injection R as <- <-. split; reflexivity.
  - intros F. split; [apply read_with_pointer_fits; assumption |].
    apply frame_at_nbytes. destruct F as (_ & Hh & Hw & Hc & _).
    apply Z.mul_nonneg_nonneg; [apply Z.mul_nonneg_nonneg |]; assumption.
  - intros s0 ->. reflexivity.
Qed.

End Frame_retrieval.

Section Lifecycle.

Context {tis : TisGrabber}.

Lemma truthy_false (v : Z) : truthy v = false -> v = 0.
Proof.
  unfold truthy. destruct (Z.eqb_spec v 0); [auto | discriminate].
Qed.

(** C2: with a vendor library in which a released grabber no longer
    reports a valid device, two [release] calls in a row both return, the
    session's handle is not valid afterwards, and the second call does
    nothing but ask whether the device is valid. *)
Theorem release_twice (s : Heap) :
  released_is_invalid ->
  let s1 := snd (release s) in
  let s2 := snd (release s1) in
  fst (release s) = Return tt /\
  fst (release s1) = Return tt /\
  valid s2 = false /\
  new_calls s1 s2 = [Call_IsDevValid (_hGrabber (self s)) 0] /\
  lib s2 = lib s1.
Proof.
  intros Law s1 s2. subst s2 s1.
  rewrite (release_eq s). cbn [fst snd].
  destruct (valid s) eqn:V.
  - set (s1 := mkHeap _ _ _ _).
    assert (I : IC_IsDevValid (lib s1) (_hGrabber (self s1)) = 0) by apply Law.
    assert (V1 : valid s1 = false) by (unfold valid; rewrite I; reflexivity).
    rewrite (release_eq s1). cbn [fst snd]. rewrite V1.
    repeat split; try exact V1.
    unfold new_calls, queried. cbn [calls]. rewrite skipn_app_length, I.
    reflexivity.
  - assert (I : IC_IsDevValid (lib s) (_hGrabber (self s)) = 0)
      by (apply truthy_false; exact V).
    rewrite (release_eq (queried s)). cbn [fst snd].
    change (valid (queried s)) with (valid s). rewrite V.
    repeat split; try exact V.
    unfold new_calls, queried. cbn [calls lib self].
    rewrite skipn_app_length, I. reflexivity.
Qed.

(** C7: with no device on the bus, and none opened by the configuration
    file, [open_device] returns [False]; the session keeps its handle, the
    handle has no valid device, and the connected flag is as it was. *)
Theorem open_device_without_devices (p : string) (s : Heap) :
  nothing_to_open ->
  valid (loaded p true s) = false ->
  IC_GetDeviceCount (lib (loaded p true s)) = 0 ->
  let r := open_device p s in
  fst r = Return false /\
  valid (snd r) = false /\
  self (snd r) = self s /\
  In (INFO, "No device opened") (new_logged s (snd r)) /\
  Forall (fun c => is_selection_dialog c = false) (new_calls s (snd r)).
Proof.
  intros Law V C r. subst r.
  assert (C1 : IC_GetDeviceCount (lib (loaded p true s)) <= 1) by lia.
  rewrite (open_device_by_name p s V C1).
  assert (V3 : valid (reopened p s) = false).
  { unfold valid, reopened, opened_by_name. cbn [lib self queried].
    rewrite Law; [reflexivity | exact C |].
    apply truthy_false. exact V. }
  rewrite V3. cbn [fst snd]. repeat split.
  - exact V3.
  - unfold new_logged. cbn [logged reopened opened_by_name queried loaded].
    rewrite <- app_assoc, skipn_app_length. apply in_or_app. right. left.
    reflexivity.
  - unfold new_calls. cbn [calls reopened opened_by_name queried loaded].
    repeat rewrite <- app_assoc. rewrite skipn_app_length.
    repeat constructor.
Qed.

(** C8: with exactly one device on the bus, no configuration path, nothing
    opened by the load, and a vendor library that opens the listed device
    and names it, [open_device] returns [True] after opening the first
    listed device by name on the session's own handle; the selection
    dialog is not called. *)
Theorem open_device_single_device (s : Heap) (name : string) :
  valid (loaded no_path true s) = false ->
  IC_GetDeviceCount (lib (loaded no_path true s)) = 1 ->
  valid (reopened no_path s) = true ->
  IC_GetDeviceName (lib (reopened no_path s)) (_hGrabber (self s)) = Some name ->
  let r := open_device no_path s in
  let h := _hGrabber (self s) in
  let l := lib (loaded no_path true s) in
  fst r = Return true /\
  new_calls s (snd r) =
    [Call_LoadDeviceStateFromFileEx h (T no_path) true (load_status no_path true s);
     Call_IsDevValid h (IC_IsDevValid l h);
     Call_GetDeviceCount 1;
     Call_GetUniqueNamefromList 0;
     Call_OpenDevByUniqueName h (IC_GetUniqueNamefromList l 0);
     Call_IsDevValid h (IC_IsDevValid (lib (reopened no_path s)) h);
     Call_GetDeviceName h;
     Call_SetCallbacks h] /\
  Forall (fun c => is_selection_dialog c = false) (new_calls s (snd r)) /\
  _hGrabber (self (snd r)) = h /\
  flag (snd r) = true.
Proof.
  intros V C V3 Nm r h l. subst r.
  assert (C1 : IC_GetDeviceCount (lib (loaded no_path true s)) <= 1) by lia.
  rewrite (open_device_by_name no_path s V C1), V3.
  step_by (_setup_device_named name (queried (reopened no_path s)) Nm).
  cbn [fst snd bind ret Monad_Py get_self log].
  assert (E : new_calls s (set_up name (queried (reopened no_path s))) =
    [Call_LoadDeviceStateFromFileEx h (T no_path) true (load_status no_path true s);
     Call_IsDevValid h (IC_IsDevValid l h);
     Call_GetDeviceCount 1;
     Call_GetUniqueNamefromList 0;
     Call_OpenDevByUniqueName h (IC_GetUniqueNamefromList l 0);
     Call_IsDevValid h (IC_IsDevValid (lib (reopened no_path s)) h);
     Call_GetDeviceName h;
     Call_SetCallbacks h]).
  { unfold new_calls.
    cbn [calls set_up reopened opened_by_name queried loaded lib self].
    repeat rewrite <- app_assoc. rewrite skipn_app_length.
    cbn [app]. cbn [loaded lib] in C. rewrite C. reflexivity. }
  repeat split.
  - exact E.
  - change (new_calls s _) with (new_calls s (set_up name (queried (reopened no_path s)))).
    rewrite E. repeat constructor.
Qed.

(** C9 (amended): [save_properties] forwards the session handle and the
    encoded path to the vendor's save, drops the status it gets back and
    returns; it raises nothing, logs nothing and leaves the session object
    as it was, whether or not the handle has a valid device. *)
Theorem save_properties_reports_nothing (p : string) (s : Heap) :
  let r := save_properties p s in
  let h := _hGrabber (self s) in
  fst r = Return tt /\
  new_logged s (snd r) = [] /\
  self (snd r) = self s /\
  new_calls s (snd r) =
    [Call_SaveDeviceStateToFile h (T p)
       (snd (IC_SaveDeviceStateToFile (lib s) h (T p)))] /\
  ~ reports_failure s r.
Proof.
  intros r h. subst r. rewrite (save_properties_eq p s). cbn [fst snd].
  assert (L : new_logged s
                (mkHeap (fst (IC_SaveDeviceStateToFile (lib s) h (T p)))
                   (calls s ++ [Call_SaveDeviceStateToFile h (T p)
                      (snd (IC_SaveDeviceStateToFile (lib s) h (T p)))])
                   (logged s) (self s)) = []).
  { unfold new_logged. cbn [logged]. apply skipn_all. }
  repeat split.
  - exact L.
  - unfold new_calls. cbn [calls]. apply skipn_app_length.
  - intros [[e E] | N]; [discriminate E |]. apply N. exact L.
Qed.

(** C4 (amended): when the vendor's load answers file-not-found,
    [load_properties] returns, leaves the callback record (connected flag
    and device name) as it was and logs one error record; and every call
    of [load_properties] that the vendor answers with device-not-found,
    wrong-XML-format or incompatible-XML surfaces exactly what this call
    does: the same return and the same one record, so the four conditions
    cannot be told apart. *)
Theorem load_properties_file_not_found (p : string) (b : bool) (s : Heap) :
  load_status p b s = IC_FILE_NOT_FOUND ->
  let r := load_properties p b s in
  fst r = Return tt /\
  userdata (self (snd r)) = userdata (self s) /\
  new_logged s (snd r) = [(ERROR, "Can not load config")] /\
  (forall p' b' s',
     load_status p' b' s' = IC_DEVICE_NOT_FOUND \/
     load_status p' b' s' = IC_WRONG_XML_FORMAT \/
     load_status p' b' s' = IC_WRONG_INCOMPATIBLE_XML ->
     surfaced s' (load_properties p' b' s') = surfaced s r).
Proof.
  intros St r. subst r.
  assert (L : forall q c t,
            new_logged t (snd (load_properties q c t)) =
            load_diagnostic (load_status q c t)).
  { intros q c t. rewrite (load_properties_eq q c t). cbn [snd].
    unfold new_logged, loaded. cbn [logged]. apply skipn_app_length. }
  assert (R : forall q c t, fst (load_properties q c t) = Return tt).
  { intros q c t. rewrite (load_properties_eq q c t). reflexivity. }
  assert (D : load_diagnostic (load_status p b s) =
              [(ERROR, "Can not load config")]).
  { rewrite St. unfold load_diagnostic. rewrite Z.eqb_refl. reflexivity. }
  split; [apply R |]. split.
  { rewrite (load_properties_eq p b s). reflexivity. }
  split; [rewrite L; exact D |].
  intros p' b' s' H. unfold surfaced. rewrite !R, !L, D. f_equal.
  unfold load_diagnostic.
  destruct H as [-> | [-> | ->]]; rewrite Z.eqb_refl, ?orb_true_r; reflexivity.
Qed.

End Lifecycle.

Section Invariants.

Context {tis : TisGrabber}.

(** C5 (amended): the constructor calls [IC_CreateGrabber] once and no
    later operation calls it again; an [open_device] that does not show the
    selection dialog leaves the session's handle as it was; [release]
    releases the session's handle once when the vendor reports its device
    valid, and makes no release call when it does not. *)
Theorem one_grabber_created (p : string) (b : bool) (l : Lib)
  (ops : list Op) (s : Heap) :
  filter is_CreateGrabber (calls (snd (__init__ p b (boot l)))) =
    [Call_CreateGrabber (snd (IC_CreateGrabber (IC_InitLibrary l 0)))] /\
  filter is_CreateGrabber (new_calls s (run_ops ops s)) = [] /\
  (Forall (fun c => is_selection_dialog c = false)
          (new_calls s (snd (open_device p s))) ->
   _hGrabber (self (snd (open_device p s))) = _hGrabber (self s)) /\
  released_handles (new_calls s (snd (release s))) =
    (if valid s then [_hGrabber (self s)] else []).
Proof.
  split; [apply __init___creates_once |].
  split.
  { apply filter_not_CreateGrabber.
    apply (calls_grow_new not_CreateGrabber s (run_ops ops s)).
    apply run_ops_no_CreateGrabber. }
  split; [apply open_device_without_dialog |].
  rewrite (release_eq s). cbn [snd]. unfold new_calls.
  destruct (valid s); unfold queried; cbn [calls];
    rewrite skipn_app_length; reflexivity.
Qed.

Lemma same_userdata_after {A B : Type} (m : Py A) (k : A -> Py B) (s : Heap) :
  same_userdata s (snd (m s)) -> (forall a, keeps same_userdata (k a)) ->
  same_userdata s (snd (bind m k s)).
Proof.
  intros Hm Hk. cbn. destruct (m s) as [[a | e] s1]; cbn [snd] in *.
  - eapply same_userdata_trans; [exact Hm | apply Hk].
  - exact Hm.
Qed.

Lemma _flip_image_same_userdata : keeps same_userdata _flip_image.
Proof. unfold _flip_image. userdata_kept. Qed.

(** The constructor leaves the flag [True] only if its [open_device]
    returned [True]. *)
Lemma __init___raises_flag (p : string) (b : bool) (l : Lib) :
  flag (snd (__init__ p b (boot l))) = true ->
  fst (open_device p (constructed b l)) = Return true.
Proof.
  rewrite __init___eq. intros F.
  destruct (open_device_userdata p (constructed b l)) as [T1 | Same];
    [exact T1 | exfalso].
  assert (K : same_userdata (constructed b l)
                (snd (bind (open_device p) (fun _ =>
                        bind _flip_image (fun _ => start false))
                      (constructed b l)))).
  { apply same_userdata_after; [exact Same | intros _].
    apply keeps_bind;
      [apply same_userdata_trans | apply _flip_image_same_userdata |].
    intros _. apply start_same_userdata. }
  unfold flag, same_userdata in *. rewrite K in F. discriminate F.
Qed.

(** C6: in every run of operations, the device-lost callback leaves the
    connected flag [False], and a step that finds the flag [False] and
    leaves it [True] is an [open_device] that returned [True]; the
    constructor, which starts from a fresh record with the flag [False],
    leaves it [True] only if its own [open_device] returned [True]. *)
Theorem connected_rises_only_by_open (ops : list Op) (s0 : Heap) (e : Event) :
  In e (history ops s0) ->
  (op_of e = Op_deviceLost -> flag (after e) = false) /\
  (flag (before e) = false -> flag (after e) = true ->
   exists p, op_of e = Op_open_device p /\ outcome e = Return (VBool true)) /\
  (forall p b l, flag (snd (__init__ p b (boot l))) = true ->
     fst (open_device p (constructed b l)) = Return true).
Proof.
  intros H. split; [| split; [| apply __init___raises_flag]]; revert s0 H.
  - induction ops as [| op ops IH]; intros s0 H; [destruct H |].
    cbn in H. destruct H as [<- | H]; [| exact (IH _ H)].
    cbn [op_of after]. intros ->. apply _deviceLostCallback_clears.
  - induction ops as [| op ops IH]; intros s0 H; [destruct H |].
    cbn in H. destruct H as [<- | H]; [| exact (IH _ H)].
    cbn [op_of before after outcome]. apply run_op_raises_flag.
Qed.

End Invariants.

(** * Runs on the reference library *)

Section Runs.

#[local] Existing Instance Sim.tisgrabber.

(** C1 on a run: a started session with one camera reads a 2x2 frame of
    three channels, twelve bytes. *)
Lemma read_frame_has_cached_size_run :
  let s := run_ops (tis := Sim.tisgrabber) [Op_read] (snd (start false Sim.one_camera)) in
  let frame :=
    mkArray (2, 2, 3) [x00; xff; x00; xff; x00; xff; x00; xff; x00; xff; x00; xff] in
  fst (read s) = Return (RPair true (Some frame)) /\
  nbytes frame = 2 * 2 * 3.
Proof.
  intros s frame.
  assert (R : fst (read s) = Return (RPair true (Some frame)))
    by (vm_compute; reflexivity).
  split; [exact R |].
  exact (proj1 (proj2 (read_frame_has_cached_size (tis := Sim.tisgrabber) false
                         Sim.one_camera [Op_read] frame R))).
Defined.

(** C3 on a run: the snap succeeds, the pointer is NULL, [read] returns
    [None]. *)
Lemma read_null_pointer_returns_None_run :
  snap_status Sim.null_frame = IC_SUCCESS /\
  snap_pointer Sim.null_frame = None /\
  fst (read Sim.null_frame) = Return RNone /\
  new_logged Sim.null_frame (snd (read Sim.null_frame)) =
    [(WARNING, "No device found.")].
Proof.
  assert (H : snap_status Sim.null_frame = IC_SUCCESS) by reflexivity.
  assert (N : snap_pointer Sim.null_frame = None) by reflexivity.
  destruct (read_null_pointer_returns_None (tis := Sim.tisgrabber) Sim.null_frame H N)
    as (R & L & _).
  auto.
Defined.

(** C10 on a run: the callback has cleared the flag, the camera still
    delivers, and [read] returns [False] with the twelve bytes of the
    2x2 frame of three channels. *)
Lemma read_returns_connected_flag_run :
  let frame :=
    mkArray (2, 2, 3) [x00; xff; x00; xff; x00; xff; x00; xff; x00; xff; x00; xff] in
  snap_status Sim.lost_camera = IC_SUCCESS /\
  snap_pointer Sim.lost_camera = Some 65536 /\
  fits (self Sim.lost_camera) /\
  flag Sim.lost_camera = false /\
  read Sim.lost_camera =
    (Return (RPair false (Some frame)), snapped Sim.lost_camera) /\
  nbytes frame = 2 * 2 * 3.
Proof.
  intros frame.
  assert (H : snap_status Sim.lost_camera = IC_SUCCESS) by reflexivity.
  assert (N : snap_pointer Sim.lost_camera = Some 65536) by reflexivity.
  assert (Ft : fits (self Sim.lost_camera))
    by (unfold fits; vm_compute; intuition discriminate).
  destruct (read_returns_connected_flag (tis := Sim.tisgrabber) Sim.lost_camera
              65536 H N) as (_ & F & L).
  destruct (F Ft) as (R & Nb).
  assert (Fl : flag Sim.lost_camera = false)
    by (apply (L Sim.one_camera); reflexivity).
  split; [exact H |]. split; [exact N |]. split; [exact Ft |].
  split; [exact Fl |]. split; [| exact Nb].
  rewrite R, Fl. reflexivity.
Defined.

(** C2 on a run: a session with one camera, released twice. *)
Lemma release_twice_run :
  released_is_invalid (tis := Sim.tisgrabber) /\
  fst (release Sim.one_camera) = Return tt /\
  fst (release (snd (release Sim.one_camera))) = Return tt /\
  valid (snd (release (snd (release Sim.one_camera)))) = false.
Proof.
  destruct (release_twice (tis := Sim.tisgrabber) Sim.one_camera Sim_released_is_invalid)
    as (A & B & C & _).
  split; [exact Sim_released_is_invalid | auto].
Defined.

(** C7 on a run: no camera on the bus. *)
Lemma open_device_without_devices_run :
  nothing_to_open (tis := Sim.tisgrabber) /\
  valid (loaded no_path true Sim.no_camera) = false /\
  IC_GetDeviceCount (lib (loaded no_path true Sim.no_camera)) = 0 /\
  fst (open_device no_path Sim.no_camera) = Return false /\
  valid (snd (open_device no_path Sim.no_camera)) = false.
Proof.
  assert (V : valid (loaded no_path true Sim.no_camera) = false) by reflexivity.
  assert (C : IC_GetDeviceCount (lib (loaded no_path true Sim.no_camera)) = 0)
    by reflexivity.
  destruct (open_device_without_devices (tis := Sim.tisgrabber) no_path Sim.no_camera
              Sim_nothing_to_open V C) as (A & B & _).
  split; [exact Sim_nothing_to_open | auto].
Defined.

(** C8 on a run: one camera on the bus, not yet opened. *)
Lemma open_device_single_device_run :
  valid (loaded no_path true Sim.plugged_in) = false /\
  IC_GetDeviceCount (lib (loaded no_path true Sim.plugged_in)) = 1 /\
  valid (reopened no_path Sim.plugged_in) = true /\
  IC_GetDeviceName (lib (reopened no_path Sim.plugged_in))
    (_hGrabber (self Sim.plugged_in)) = Some "DFK 33UX264" /\
  fst (open_device no_path Sim.plugged_in) = Return true /\
  flag (snd (open_device no_path Sim.plugged_in)) = true.
Proof.
  assert (V : valid (loaded no_path true Sim.plugged_in) = false) by reflexivity.
  assert (C : IC_GetDeviceCount (lib (loaded no_path true Sim.plugged_in)) = 1)
    by reflexivity.
  assert (V3 : valid (reopened no_path Sim.plugged_in) = true) by reflexivity.
  assert (Nm : IC_GetDeviceName (lib (reopened no_path Sim.plugged_in))
                 (_hGrabber (self Sim.plugged_in)) = Some "DFK 33UX264")
    by reflexivity.
  destruct (open_device_single_device (tis := Sim.tisgrabber) Sim.plugged_in
              "DFK 33UX264" V C V3 Nm) as (A & _ & _ & _ & B).
  auto 7.
Defined.

(** C4 on a run: a path that names no file. *)
Lemma load_properties_file_not_found_run :
  load_status "missing.xml" false Sim.one_camera = IC_FILE_NOT_FOUND /\
  userdata (self (snd (load_properties "missing.xml" false Sim.one_camera))) =
    userdata (self Sim.one_camera) /\
  new_logged Sim.one_camera
    (snd (load_properties "missing.xml" false Sim.one_camera)) =
    [(ERROR, "Can not load config")].
Proof.
  assert (St : load_status "missing.xml" false Sim.one_camera = IC_FILE_NOT_FOUND)
    by reflexivity.
  destruct (load_properties_file_not_found (tis := Sim.tisgrabber) "missing.xml" false
              Sim.one_camera St) as (_ & A & B & _).
  auto.
Defined.

(** C4 as stated fails: a missing file and a file that names a missing
    device surface the same thing, so no error class of its own tells the
    caller that the file was not found. *)
Lemma file_not_found_not_told_apart :
  load_status "missing.xml" false Sim.one_camera = IC_FILE_NOT_FOUND /\
  load_status "old.xml" false Sim.stale_file = IC_DEVICE_NOT_FOUND /\
  IC_FILE_NOT_FOUND (TisGrabber := Sim.tisgrabber) <> IC_DEVICE_NOT_FOUND /\
  ~ tells_apart
      Sim.one_camera (load_properties "missing.xml" false Sim.one_camera)
      Sim.stale_file (load_properties "old.xml" false Sim.stale_file).
Proof.
  split; [reflexivity |]. split; [reflexivity |]. split; [discriminate |].
  intros H. apply H. vm_compute. reflexivity.
Qed.

(** C5 as stated fails: with two cameras the constructor creates a grabber
    and the dialog a second one, and only the second is ever released; with
    no camera the one grabber is never released. *)
Lemma created_grabber_not_released :
  created_handles (Sim.life Sim.two_cameras) = [4096; 4104] /\
  released_handles (Sim.life Sim.two_cameras) = [4104] /\
  ~ one_handle_per_life (Sim.life Sim.two_cameras) /\
  created_handles (Sim.life Sim.no_camera) = [4096] /\
  released_handles (Sim.life Sim.no_camera) = [] /\
  ~ one_handle_per_life (Sim.life Sim.no_camera).
Proof.
  assert (C2 : created_handles (Sim.life Sim.two_cameras) = [4096; 4104])
    by (vm_compute; reflexivity).
  assert (R0 : released_handles (Sim.life Sim.no_camera) = [])
    by (vm_compute; reflexivity).
  repeat split; try (vm_compute; reflexivity).
  - intros (h & C & _). rewrite C2 in C. discriminate C.
  - intros (h & _ & R). rewrite R0 in R. discriminate R.
Qed.

(** C5 on a run: reopening a session whose device is valid shows no dialog
    and keeps the handle. *)
Lemma one_grabber_created_run :
  Forall (fun c => is_selection_dialog c = false)
         (new_calls Sim.one_camera (snd (open_device no_path Sim.one_camera))) /\
  _hGrabber (self (snd (open_device no_path Sim.one_camera))) =
    _hGrabber (self Sim.one_camera).
Proof.
  assert (F : Forall (fun c => is_selection_dialog c = false)
                (new_calls Sim.one_camera (snd (open_device no_path Sim.one_camera))))
    by (vm_compute; repeat constructor).
  split; [exact F |].
  exact (proj1 (proj2 (proj2 (one_grabber_created (tis := Sim.tisgrabber) no_path true
                                (Sim.bench [] None None) [] Sim.one_camera))) F).
Defined.

(** C9 as stated fails: without a valid device the vendor's save answers
    with an error status, and [save_properties] returns as ever, nothing
    raised and nothing logged. *)
Lemma save_properties_silent_without_device :
  valid Sim.no_camera = false /\
  snd (IC_SaveDeviceStateToFile (lib Sim.no_camera)
         (_hGrabber (self Sim.no_camera)) (T "camera.xml")) = 0 /\
  fst (save_properties "camera.xml" Sim.no_camera) = Return tt /\
  ~ reports_failure Sim.no_camera (save_properties "camera.xml" Sim.no_camera).
Proof.
  repeat split.
  intros [[e E] | N].
  - vm_compute in E. discriminate E.
  - apply N. vm_compute. reflexivity.
Qed.

(** C6 on a run: the camera is lost, then opened again. *)
Lemma connected_rises_only_by_open_run :
  let ops := [@Op_deviceLost Sim.tisgrabber; Op_open_device no_path] in
  let h := history ops Sim.one_camera in
  let e := nth 1 h (mkEvent Sim.one_camera Op_read (Return VNone) Sim.one_camera) in
  In e h /\
  flag (before e) = false /\ flag (after e) = true /\
  exists p, op_of e = Op_open_device p /\ outcome e = Return (VBool true).
Proof.
  intros ops h e.
  assert (I : In e h) by (right; left; reflexivity).
  assert (F0 : flag (before e) = false) by reflexivity.
  assert (F1 : flag (after e) = true) by reflexivity.
  destruct (connected_rises_only_by_open (tis := Sim.tisgrabber) ops Sim.one_camera e I)
    as (_ & Up & _).
  repeat split; [exact I | exact (Up F0 F1)].
Defined.

End Runs.

(** * Further properties of the methods *)

Section More_on_read.

Context {tis : TisGrabber}.

(** With a pointer to the image, [read] returns exactly when the cached
    geometry fits. *)
Lemma read_with_pointer_returns (s : Heap) (p : Z) :
  snap_status s = IC_SUCCESS -> snap_pointer s = Some p ->
  (exists r, fst (read s) = Return r) <-> fits (self s).
Proof.
  intros H N. split.
  - intros (r & R). destruct (read s) as [r' s'] eqn:E. cbn in R. subst r'.
    exact (read_with_pointer_inv s s' p r H N E).
  - intros F. rewrite (read_with_pointer_fits s p H N F). eexists. reflexivity.
Qed.

(** The geometry [start] caches fits a picture that is not empty, has at
    least one byte per pixel and a buffer size ctypes accepts. *)
Lemma described_fits (me : IcCameraControl) :
  described me ->
  0 < _width me -> 0 < _height me -> 8 <= _bits_per_pixel me ->
  _width me * _height me * _bits_per_pixel me <= PY_SSIZE_T_MAX ->
  fits me.
Proof.
  intros [Ch Bs] Hw Hh Hb Hmax. unfold fits. rewrite Ch, Bs.
  set (c := Z.quot (_bits_per_pixel me) 8).
  assert (Q0 : 1 <= c).
  { unfold c. rewrite Z.quot_div_nonneg by lia.
    apply Z.div_le_lower_bound; lia. }
  assert (Q1 : c <= _bits_per_pixel me).
  { unfold c. rewrite Z.quot_div_nonneg by lia.
    apply Z.div_le_upper_bound; lia. }
  assert (P0 : 0 <= _width me * _height me) by (apply Z.mul_nonneg_nonneg; lia).
  assert (P1 : 0 <= _width me * _height me * _bits_per_pixel me)
    by (apply Z.mul_nonneg_nonneg; lia).
  assert (P2 : _height me * _width me * c
               <= _width me * _height me * _bits_per_pixel me).
  { rewrite (Z.mul_comm (_height me) (_width me)).
    apply Z.mul_le_mono_nonneg_l; assumption. }
  assert (N0 : nonzero (_height me) = _height me)
    by (unfold nonzero; destruct (Z.eqb_spec (_height me) 0); lia).
  assert (N1 : nonzero (_width me) = _width me)
    by (unfold nonzero; destruct (Z.eqb_spec (_width me) 0); lia).
  assert (N2 : nonzero c = c)
    by (unfold nonzero; destruct (Z.eqb_spec c 0); lia).
  rewrite N0, N1, N2. unfold NPY_MAX_INTP, PY_SSIZE_T_MAX in *.
  repeat split; lia.
Qed.

(** X1: once [start] has run, and whatever operations follow it, [read]
    raises nothing as long as the cached picture is not empty (width and
    height positive), has at least eight bits per pixel, and the product
    of the three is a length ctypes accepts. *)
Theorem read_after_start_never_raises (create_window : bool) (s0 : Heap)
  (ops : list Op) :
  let s := run_ops ops (snd (start create_window s0)) in
  0 < _width (self s) -> 0 < _height (self s) ->
  8 <= _bits_per_pixel (self s) ->
  _width (self s) * _height (self s) * _bits_per_pixel (self s)
    <= PY_SSIZE_T_MAX ->
  exists r, fst (read s) = Return r.
Proof.
  intros s Hw Hh Hb Hmax.
  assert (D : described (self s)).
  { apply run_ops_described. apply start_described. }
  destruct (Z.eq_dec (snap_status s) IC_SUCCESS) as [H | H].
  - destruct (snap_pointer s) as [p |] eqn:N.
    + apply (read_with_pointer_returns s p H N).
      apply described_fits; assumption.
    + rewrite (read_null_pointer s H N). eexists. reflexivity.
  - destruct (read_failed_snap s H) as (s1 & R & _).
    rewrite R. eexists. reflexivity.
Qed.

Lemma fits_dec (me : IcCameraControl) : fits me \/ ~ fits me.
Proof. unfold fits. lia. Qed.

(** X2: when the snap succeeds and the image pointer is not NULL, [read]
    raises exactly when the cached geometry does not fit: a buffer size
    that is negative or beyond what ctypes accepts, a negative dimension,
    non-zero dimensions whose product is beyond numpy's largest size, or
    a shape that needs more bytes than the buffer size. *)
Theorem read_raises_iff_misfit (s : Heap) (p : Z) :
  snap_status s = IC_SUCCESS -> snap_pointer s = Some p ->
  ((exists e, fst (read s) = Raise e) <-> ~ fits (self s)).
Proof.
  intros H N. pose proof (read_with_pointer_returns s p H N) as R.
  split.
  - intros (e & E) F. apply R in F as (r & F). congruence.
  - intros F. destruct (fst (read s)) as [r | e] eqn:E.
    + exfalso. apply F. apply R. exists r. reflexivity.
    + exists e. reflexivity.
Qed.

(** X3: whatever it returns or raises, [read] leaves the session object
    as it was and the library in the state the snap left it in; it calls
    [IC_SnapImage] with no timeout and then, only if the snap succeeded,
    [IC_GetImagePtr], and nothing else. *)
Theorem read_touches_nothing_else (s : Heap) :
  let h := _hGrabber (self s) in
  let r := read s in
  self (snd r) = self s /\
  lib (snd r) = fst (IC_SnapImage (lib s) h (-1)) /\
  new_calls s (snd r) =
    if snap_status s =? IC_SUCCESS
    then [Call_SnapImage h (-1) (snap_status s); Call_GetImagePtr h]
    else [Call_SnapImage h (-1) (snap_status s)].
Proof.
  intros h r. subst r h.
  destruct (Z.eqb_spec (snap_status s) IC_SUCCESS) as [H | H].
  - assert (C : new_calls s (snapped s) =
                [Call_SnapImage (_hGrabber (self s)) (-1) (snap_status s);
                 Call_GetImagePtr (_hGrabber (self s))]).
    { unfold new_calls, snapped. cbn [calls]. apply skipn_app_length. }
    destruct (snap_pointer s) as [p |] eqn:N.
    + rewrite (read_with_pointer s p H N).
      destruct (ctypes_ubyte_array p (_buffer_size (self s)) (snapped s))
        as [[b | e] s1] eqn:A.
      * apply ctypes_ubyte_array_length in A as A'. destruct A' as (-> & _).
        step_by A.
        destruct (np_ndarray b (_height (self s)) (_width (self s))
                    (_channel (self s)) (snapped s)) as [[a | e] s2] eqn:B.
        -- apply np_ndarray_exact in B as B'. destruct B' as (-> & _).
           step_by B. cbn [snd ret Monad_Py]. auto.
        -- rewrite (bind_Raise _ _ _ _ _ B). cbn [snd].
           pose proof (keeps_np_ndarray (fun a b => a = b) (fun _ => eq_refl)
                         b (_height (self s)) (_width (self s))
                         (_channel (self s)) (snapped s)) as K.
           rewrite B in K. cbn [snd] in K. subst s2. auto.
      * rewrite (bind_Raise _ _ _ _ _ A). cbn [snd].
        pose proof (keeps_ctypes_ubyte_array (fun a b => a = b) (fun _ => eq_refl)
                      p (_buffer_size (self s)) (snapped s)) as K.
        rewrite A in K. cbn [snd] in K. subst s1. auto.
    + rewrite (read_null_pointer s H N). cbn [snd self lib]. repeat split.
      unfold new_calls. cbn [calls]. exact C.
  - apply Z.eqb_neq in H. unfold read, snap_status in *. cbn. rewrite H.
    cbn. repeat split. unfold new_calls. cbn [calls]. apply skipn_app_length.
Qed.

(** X4: when the snap fails, [read] returns the connected flag with no
    frame and logs nothing; after the device-lost callback that pair is
    [(False, None)]. *)
Theorem read_failed_snap_returns_flag (s : Heap) :
  snap_status s <> IC_SUCCESS ->
  fst (read s) = Return (RPair (flag s) None) /\
  logged (snd (read s)) = logged s /\
  (forall s0, s = snd (_deviceLostCallback s0) ->
     fst (read s) = Return (RPair false None)).
Proof.
  intros H. destruct (read_failed_snap s H) as (s1 & R & L).
  rewrite R. cbn [fst snd]. repeat split; [exact L |].
  intros s0 ->. reflexivity.
Qed.

End More_on_read.

Section More_on_open_device.

Context {tis : TisGrabber}.

(** The end of [open_device]: the second validity test and what follows. *)
Lemma open_device_end (s3 : Heap) :
  let k := fun valid : bool =>
    if valid
    then bind _setup_device (fun _ =>
           bind get_self (fun me =>
             bind (log INFO ("Device " ++ devicename (userdata me) ++ " open"))
                  (fun _ => ret true)))
    else bind _handle_device_open_error (fun _ => ret false) in
  let r := bind is_dev_valid k s3 in
  let h := _hGrabber (self s3) in
  _hGrabber (self (snd r)) = h /\
  calls_grow (fun c => selects_device c = false) s3 (snd r) /\
  match fst r with
  | Return true =>
      valid s3 = true /\
      flag (snd r) = true /\
      (exists name, IC_GetDeviceName (lib s3) h = Some name /\
         devicename (userdata (self (snd r))) = decode_utf8_ignore name) /\
      lib (snd r) = IC_SetCallbacks (lib s3) h /\
      (exists pre, calls (snd r) =
         (pre ++ [Call_GetDeviceName h; Call_SetCallbacks h])%list) /\
      (exists pre, logged (snd r) =
         (pre ++ [(INFO, ("Device " ++ devicename (userdata (self (snd r)))
                            ++ " open")%string)])%list)
  | Return false =>
      valid s3 = false /\
      valid (snd r) = false /\
      userdata (self (snd r)) = userdata (self s3) /\
      (exists pre, logged (snd r) = (pre ++ [(INFO, "No device opened")])%list)
  | Raise e =>
      e = AttributeError /\
      valid s3 = true /\
      IC_GetDeviceName (lib s3) h = None /\
      userdata (self (snd r)) = userdata (self s3) /\
      logged (snd r) = logged s3
  end.
Proof.
  intros k r h. subst r k.
  step_by (is_dev_valid_eq s3).
  destruct (valid s3) eqn:V.
  - destruct (IC_GetDeviceName (lib s3) h) as [name |] eqn:Nm.
    + step_by (_setup_device_named name (queried s3) Nm).
      cbn [fst snd bind ret Monad_Py get_self log].
      split; [reflexivity |]. split.
      { eexists. split; [unfold set_up, queried; cbn [calls];
                         rewrite <- app_assoc; reflexivity |].
        repeat constructor. }
      split; [reflexivity |]. split; [reflexivity |].
      split; [exists name; split; reflexivity |].
      split; [reflexivity |].
      split.
      * exists (calls (queried s3)). reflexivity.
      * eexists. reflexivity.
    + unfold _setup_device. cbn. fold h. rewrite Nm. cbn.
      split; [reflexivity |]. split.
      { eexists. split; [rewrite <- app_assoc; reflexivity | repeat constructor]. }
      repeat split.
  - cbn. split; [reflexivity |]. split.
    { eexists. split; [reflexivity | repeat constructor]. }
    repeat split; [exact V |]. eexists. reflexivity.
Qed.

(** The three ways to the end of [open_device]: the load opened the
    device, or [_select_device] opened one by name, or the user chose one
    in the dialog. *)
Lemma open_device_ways (p : string) (s : Heap) :
  exists s3,
    open_device p s =
    bind is_dev_valid (fun valid : bool =>
      if valid
      then bind _setup_device (fun _ =>
             bind get_self (fun me =>
               bind (log INFO ("Device " ++ devicename (userdata me) ++ " open"))
                    (fun _ => ret true)))
      else bind _handle_device_open_error (fun _ => ret false)) s3 /\
    userdata (self s3) = userdata (self s) /\
    ((valid (loaded p true s) = true /\ s3 = queried (loaded p true s)) \/
     (valid (loaded p true s) = false /\
      IC_GetDeviceCount (lib (loaded p true s)) <= 1 /\ s3 = reopened p s) \/
     (valid (loaded p true s) = false /\
      1 < IC_GetDeviceCount (lib (loaded p true s)) /\
      s3 = chosen_in_dialog p s)).
Proof.
  unfold open_device.
  step_by (load_properties_eq p true s).
  step_by (is_dev_valid_eq (loaded p true s)).
  destruct (valid (loaded p true s)) eqn:V; cbn [negb].
  - exists (queried (loaded p true s)).
    split; [reflexivity |]. split; [reflexivity |]. left. auto.
  - destruct (Z_le_gt_dec (IC_GetDeviceCount (lib (loaded p true s))) 1) as [C | C].
    + exists (reopened p s).
      step_by (reselect_by_name (queried (loaded p true s)) C).
      split; [reflexivity |]. split; [reflexivity |]. right. left. auto.
    + assert (C' : 1 < IC_GetDeviceCount (lib (queried (loaded p true s))))
        by (cbn [lib queried]; lia).
      exists (chosen_in_dialog p s).
      assert (E : bind _select_device (fun h => set_self (with_hGrabber h))
                    (queried (loaded p true s)) =
                  (Return tt, chosen_in_dialog p s)).
      { step_by (_select_device_by_dialog (queried (loaded p true s)) C').
        reflexivity. }
      step_by E.
      split; [reflexivity |]. split; [reflexivity |]. right. right.
      split; [reflexivity |]. split; [lia | reflexivity].
Qed.

(** X5: what [open_device] leaves behind, by outcome.  [True]: the flag is
    set; the device name is the decoding of the name [IC_GetDeviceName]
    gave for the session's handle, in the library state on which
    [IC_SetCallbacks] was then called; these two are the last vendor calls
    and the last log record announces the device.  [False]: the callback
    record is as it was, the session's handle has no valid device and the
    last log record says so.  The only exception is the AttributeError of
    decoding a missing name; the callback record is then as it was. *)
Theorem open_device_outcome (p : string) (s : Heap) :
  let r := open_device p s in
  let h := _hGrabber (self (snd r)) in
  match fst r with
  | Return true =>
      flag (snd r) = true /\
      (exists name l,
         IC_GetDeviceName l h = Some name /\
         lib (snd r) = IC_SetCallbacks l h /\
         devicename (userdata (self (snd r))) = decode_utf8_ignore name) /\
      (exists pre, calls (snd r) =
         (pre ++ [Call_GetDeviceName h; Call_SetCallbacks h])%list) /\
      (exists pre, logged (snd r) =
         (pre ++ [(INFO, ("Device " ++ devicename (userdata (self (snd r)))
                            ++ " open")%string)])%list)
  | Return false =>
      userdata (self (snd r)) = userdata (self s) /\
      valid (snd r) = false /\
      (exists pre, logged (snd r) = (pre ++ [(INFO, "No device opened")])%list)
  | Raise e =>
      e = AttributeError /\ userdata (self (snd r)) = userdata (self s)
  end.
Proof.
  intros r h. subst h r.
  destruct (open_device_ways p s) as (s3 & E & U & _). rewrite E.
  pose proof (open_device_end s3) as (Hh & _ & O). cbn zeta in Hh, O.
  rewrite Hh.
  destruct (fst (bind is_dev_valid _ s3)) as [[|] | e].
  - destruct O as (_ & F & (name & Gn & Nm) & Lb & Cs & Ls).
    repeat split; try assumption. exists name, (lib s3). auto.
  - destruct O as (_ & V & Us & Ls). rewrite <- U. auto.
  - destruct O as (-> & _ & _ & Us & _). rewrite <- U. auto.
Qed.

End More_on_open_device.

Section More_on_selection.

Context {tis : TisGrabber}.

(** X6: with more than one device listed and none opened by the load,
    [open_device] shows the selection dialog with no grabber of its own and
    stores the handle the dialog returns in place of the session's; it
    returns [False] exactly when that handle has no valid device; and apart
    from the device count and the dialog it makes no selecting call, so
    nothing is opened by name. *)
Theorem open_device_by_dialog (p : string) (s : Heap) :
  valid (loaded p true s) = false ->
  1 < IC_GetDeviceCount (lib (loaded p true s)) ->
  let r := open_device p s in
  let l := lib (loaded p true s) in
  let h := _hGrabber (self s) in
  let d := IC_ShowDeviceSelectionDialog l None in
  _hGrabber (self (snd r)) = snd d /\
  (fst r = Return false <-> valid (chosen_in_dialog p s) = false) /\
  exists rest,
    new_calls s (snd r) =
      ([Call_LoadDeviceStateFromFileEx h (T p) true (load_status p true s);
        Call_IsDevValid h (IC_IsDevValid l h);
        Call_GetDeviceCount (IC_GetDeviceCount l);
        Call_ShowDeviceSelectionDialog None (snd d)] ++ rest)%list /\
    Forall (fun c => selects_device c = false) rest.
Proof.
  intros V C r l h d. subst r.
  destruct (open_device_ways p s) as (s3 & E & _ & [(V' & _) | [(_ & C' & _) | (_ & _ & ->)]]);
    [congruence | lia |].
  rewrite E.
  pose proof (open_device_end (chosen_in_dialog p s)) as (Hh & (rest & Cs & F) & O).
  cbn zeta in Hh, Cs, O.
  split; [rewrite Hh; reflexivity |]. split.
  - destruct (fst (bind is_dev_valid _ (chosen_in_dialog p s))) as [[|] | e].
    + destruct O as (Vt & _). split; [discriminate | congruence].
    + destruct O as (Vf & _). split; auto.
    + destruct O as (_ & Vt & _). split; [discriminate | congruence].
  - exists rest. split; [| exact F].
    unfold new_calls. rewrite Cs.
    unfold chosen_in_dialog. cbn [calls queried loaded lib self].
    repeat rewrite <- app_assoc. rewrite skipn_app_length. reflexivity.
Qed.

(** X7: when the load has opened the device named in the configuration
    file, [open_device] does not look for a device at all: it asks twice
    whether the device is valid, takes its name, registers the callbacks
    and returns [True], all on the session's own handle. *)
Theorem open_device_by_config (p : string) (s : Heap) (name : string) :
  valid (loaded p true s) = true ->
  IC_GetDeviceName (lib (loaded p true s)) (_hGrabber (self s)) = Some name ->
  let r := open_device p s in
  let l := lib (loaded p true s) in
  let h := _hGrabber (self s) in
  fst r = Return true /\
  new_calls s (snd r) =
    [Call_LoadDeviceStateFromFileEx h (T p) true (load_status p true s);
     Call_IsDevValid h (IC_IsDevValid l h);
     Call_IsDevValid h (IC_IsDevValid l h);
     Call_GetDeviceName h;
     Call_SetCallbacks h] /\
  _hGrabber (self (snd r)) = h /\
  devicename (userdata (self (snd r))) = decode_utf8_ignore name /\
  flag (snd r) = true.
Proof.
  intros V Nm r l h. subst r.
  destruct (open_device_ways p s) as (s3 & E & _ & [(_ & ->) | [(V' & _) | (V' & _)]]);
    [| congruence | congruence].
  rewrite E.
  step_by (is_dev_valid_eq (queried (loaded p true s))).
  change (valid (queried (loaded p true s))) with (valid (loaded p true s)).
  rewrite V.
  step_by (_setup_device_named name (queried (queried (loaded p true s))) Nm).
  cbn [fst snd bind ret Monad_Py get_self log].
  repeat split.
  unfold new_calls.
  cbn [calls set_up queried loaded lib self].
  repeat rewrite <- app_assoc. rewrite skipn_app_length. reflexivity.
Qed.

End More_on_selection.

(** ** What the operations leave alone *)
Section Fields.

Context {tis : TisGrabber}.

Variable X : Type.
Variable f : IcCameraControl -> X.

Lemma same_field_refl (s : Heap) : same_field f s s.
Proof. reflexivity. Qed.

Lemma same_field_trans (a b c : Heap) :
  same_field f a b -> same_field f b c -> same_field f a c.
Proof. unfold same_field. congruence. Qed.

Lemma same_field_log (lv : Level) (msg : string) : keeps (same_field f) (log lv msg).
Proof. intros s. reflexivity. Qed.

Lemma same_field_ffi {A : Type} (g : Lib -> Lib * A) (ev : A -> Call) :
  keeps (same_field f) (ffi g ev).
Proof. intros s. reflexivity. Qed.

Lemma same_field_ffi_ (g : Lib -> Lib) (ev : Call) : keeps (same_field f) (ffi_ g ev).
Proof. intros s. reflexivity. Qed.

Lemma same_field_ffi_query {A : Type} (g : Lib -> A) (ev : A -> Call) :
  keeps (same_field f) (ffi_query g ev).
Proof. intros s. reflexivity. Qed.

Lemma same_field_set_self (g : IcCameraControl -> IcCameraControl) :
  (forall me, f (g me) = f me) -> keeps (same_field f) (set_self g).
Proof. intros H s. apply H. Qed.

Lemma same_field_vendor (g : Lib -> Lib) : keeps (same_field f) (run_op (Op_vendor g)).
Proof. intros s. reflexivity. Qed.

End Fields.

Create HintDb field_db.

#[export] Hint Resolve same_field_refl same_field_trans same_field_log
  same_field_ffi same_field_ffi_ same_field_ffi_query same_field_set_self
  same_field_vendor : field_db.
#[export] Hint Extern 1 (geometry _ = geometry _) => reflexivity : field_db.
#[export] Hint Extern 1 (_hGrabber _ = _hGrabber _) => reflexivity : field_db.
#[export] Hint Extern 1 (not_ending _) => reflexivity : calls_db.

Ltac field_kept := keeps_all ltac:(eauto with field_db).

Ltac unfold_methods :=
  unfold void, read, open_device, load_properties, start,
    _get_image_description, release, is_dev_valid, _select_device,
    _setup_device, _handle_device_open_error, show_property_dialog,
    list_available_properties, save_properties, _flip_image,
    _frameReadyCallback, _deviceLostCallback.

Section Frame_conditions.

Context {tis : TisGrabber}.

Lemma run_op_same_handle (op : Op) :
  is_open_device op = false -> keeps (same_field _hGrabber) (run_op op).
Proof.
  destruct op; intros H; try discriminate H; cbn [run_op];
    unfold_methods; field_kept.
Qed.

Lemma run_op_same_geometry (op : Op) :
  is_start op = false -> keeps (same_field geometry) (run_op op).
Proof.
  destruct op; intros H; try discriminate H; cbn [run_op];
    unfold_methods; field_kept.
Qed.

Lemma run_op_not_ending (op : Op) :
  is_release op = false -> keeps (calls_grow not_ending) (run_op op).
Proof.
  destruct op; intros H; try discriminate H; cbn [run_op];
    try (unfold_methods; calls_kept; fail).
  intros s. apply calls_grow_same. reflexivity.
Qed.

Lemma __init___not_ending (p : string) (b : bool) :
  keeps (calls_grow not_ending) (__init__ p b).
Proof. unfold __init__. unfold_methods. calls_kept. Qed.

(** X9: the wrapper's own code writes the session's handle in
    [open_device] alone: over any run of operations with neither an
    [open_device] nor a [release] (where the vendor is handed the handle
    to dispose of) it stays what it was. *)
Theorem handle_written_by_open_device_only (ops : list Op) (s : Heap) :
  forallb (fun op => negb (is_open_device op) && negb (is_release op)) ops
    = true ->
  _hGrabber (self (run_ops ops s)) = _hGrabber (self s).
Proof.
  revert s. induction ops as [| op ops IH]; intros s H; [reflexivity |].
  cbn in H. apply andb_prop in H as [H1 H2].
  apply andb_prop in H1 as [H1 _]. apply negb_true_iff in H1.
  cbn [run_ops fold_left]. change (fold_left _ ops ?x) with (run_ops ops x).
  rewrite (IH _ H2). apply (run_op_same_handle op H1 s).
Qed.

(** X10: the cached geometry (width, height, bit depth, colour format,
    channel count, buffer size) is written by [start] alone; over any run
    of other operations, a [load_properties] among them, it stays what it
    was. *)
Theorem geometry_written_by_start_only (ops : list Op) (s : Heap) :
  forallb (fun op => negb (is_start op)) ops = true ->
  geometry (self (run_ops ops s)) = geometry (self s).
Proof.
  revert s. induction ops as [| op ops IH]; intros s H; [reflexivity |].
  cbn in H. apply andb_prop in H as [H1 H2]. apply negb_true_iff in H1.
  cbn [run_ops fold_left]. change (fold_left _ ops ?x) with (run_ops ops x).
  rewrite (IH _ H2). apply (run_op_same_geometry op H1 s).
Qed.

Lemma run_ops_not_ending (ops : list Op) (s : Heap) :
  forallb (fun op => negb (is_release op)) ops = true ->
  calls_grow not_ending s (run_ops ops s).
Proof.
  revert s. induction ops as [| op ops IH]; intros s H.
  - apply calls_grow_refl.
  - cbn in H. apply andb_prop in H as [H1 H2]. apply negb_true_iff in H1.
    cbn [run_ops fold_left]. change (fold_left _ ops ?x) with (run_ops ops x).
    eapply calls_grow_trans; [apply (run_op_not_ending op H1 s) | apply (IH _ H2)].
Qed.

(** X11: [IC_StopLive] and [IC_ReleaseGrabber] are called by [release]
    alone: the constructor calls neither, and no run of other operations
    does, an [open_device] that takes a new handle from the dialog
    included. *)
Theorem grabber_ended_by_release_only (p : string) (b : bool) (l : Lib)
  (ops : list Op) (s : Heap) :
  Forall not_ending (calls (snd (__init__ p b (boot l)))) /\
  (forallb (fun op => negb (is_release op)) ops = true ->
   Forall not_ending (new_calls s (run_ops ops s))).
Proof.
  split.
  - destruct (__init___not_ending p b (boot l)) as (new & E & F).
    rewrite E. exact F.
  - intros H.
    apply (calls_grow_new not_ending s (run_ops ops s)).
    apply run_ops_not_ending. exact H.
Qed.

(** X8: the constructor does not look at what [open_device] returned:
    whether [True] or [False], it goes on to install the flip filter on the
    session's handle, to start the acquisition without a window and to
    cache the geometry, in this order; only an exception of [open_device]
    stops it, and is passed on. *)
Theorem constructor_ignores_open_result (p : string) (b : bool) (l : Lib) :
  let r0 := open_device p (constructed b l) in
  let r := __init__ p b (boot l) in
  match fst r0 with
  | Return _ =>
      fst r = Return tt /\
      calls (snd r) = (calls (snd r0) ++ flip_and_start (snd r0))%list /\
      logged (snd r) = logged (snd r0) /\
      userdata (self (snd r)) = userdata (self (snd r0)) /\
      _hGrabber (self (snd r)) = _hGrabber (self (snd r0)) /\
      described (self (snd r))
  | Raise e => r = (Raise e, snd r0)
  end.
Proof.
  intros r0 r. subst r r0. rewrite __init___eq.
  destruct (open_device p (constructed b l)) as [[v | e] s1] eqn:E; cbn [fst snd].
  - step_by E. unfold _flip_image, start, _get_image_description, flip_and_start.
    cbn. repeat rewrite <- app_assoc. repeat split.
  - rewrite (bind_Raise _ _ _ _ _ E). reflexivity.
Qed.

(** X12: [load_properties] always returns, makes the one vendor call with
    the session's handle, the encoded path and the open flag, and leaves
    the session object alone; it logs its error exactly for the four
    statuses it tests, and for every other status, a failure among them,
    it logs nothing. *)
Theorem load_properties_logs_four_statuses (p : string) (b : bool) (s : Heap) :
  let r := load_properties p b s in
  let st := load_status p b s in
  let four := st = IC_FILE_NOT_FOUND \/ st = IC_DEVICE_NOT_FOUND \/
              st = IC_WRONG_XML_FORMAT \/ st = IC_WRONG_INCOMPATIBLE_XML in
  fst r = Return tt /\
  self (snd r) = self s /\
  new_calls s (snd r) =
    [Call_LoadDeviceStateFromFileEx (_hGrabber (self s)) (T p) b st] /\
  (four -> new_logged s (snd r) = [(ERROR, "Can not load config")]) /\
  (~ four -> new_logged s (snd r) = []).
Proof.
  intros r st four. subst r.
  rewrite (load_properties_eq p b s). cbn [fst snd].
  assert (L : new_logged s (loaded p b s) = load_diagnostic st).
  { unfold new_logged, loaded. cbn [logged]. apply skipn_app_length. }
  split; [reflexivity |]. split; [reflexivity |]. split.
  { unfold new_calls, loaded. cbn [calls]. apply skipn_app_length. }
  rewrite L. unfold load_diagnostic, four.
  destruct (Z.eqb_spec st IC_FILE_NOT_FOUND);
    destruct (Z.eqb_spec st IC_DEVICE_NOT_FOUND);
    destruct (Z.eqb_spec st IC_WRONG_XML_FORMAT);
    destruct (Z.eqb_spec st IC_WRONG_INCOMPATIBLE_XML);
    cbn [orb]; split; intros; try reflexivity; exfalso; tauto.
Qed.

End Frame_conditions.

Section More_on_read_log.

Context {tis : TisGrabber}.

(** With a pointer to the image, [read] ends in the heap its two vendor
    calls left, whether it returns or raises. *)
Lemma read_with_pointer_heap (s : Heap) (p : Z) :
  snap_status s = IC_SUCCESS -> snap_pointer s = Some p ->
  snd (read s) = snapped s.
Proof.
  intros H N. rewrite (read_with_pointer s p H N).
  assert (K : keeps (fun a b : Heap => b = a)
                (bind (ctypes_ubyte_array p (_buffer_size (self s)))
                   (fun image_data =>
                      bind (np_ndarray image_data (_height (self s))
                              (_width (self s)) (_channel (self s)))
                           (fun img_array =>
                              ret (RPair (flag s) (Some img_array)))))).
  { keeps_all ltac:(first [reflexivity | intros; congruence]). }
  apply K.
Qed.

(** X13: [read] logs one thing only, the warning of the NULL image
    pointer after a successful snap; a failed snap, a frame returned and
    an exception all leave the log as it was. *)
Theorem read_logs_null_pointer_only (s : Heap) :
  new_logged s (snd (read s)) =
  match snap_pointer s with
  | None => if snap_status s =? IC_SUCCESS
            then [(WARNING, "No device found.")] else []
  | Some _ => []
  end.
Proof.
  assert (Z0 : forall s1, logged s1 = logged s -> new_logged s s1 = []).
  { intros s1 E. unfold new_logged. rewrite E. apply skipn_all. }
  destruct (Z.eqb_spec (snap_status s) IC_SUCCESS) as [H | H].
  - destruct (snap_pointer s) as [p |] eqn:N.
    + rewrite (read_with_pointer_heap s p H N). apply Z0. reflexivity.
    + rewrite (read_null_pointer s H N). cbn [snd].
      unfold new_logged. cbn [logged]. apply skipn_app_length.
  - destruct (read_failed_snap s H) as (s1 & R & L). rewrite R. cbn [snd].
    rewrite (Z0 s1 L). destruct (snap_pointer s); reflexivity.
Qed.

End More_on_read_log.

(** * Further runs on the reference library *)

Section More_runs.

#[local] Existing Instance Sim.tisgrabber.

(** X1 on a run: a started session with one camera. *)
Lemma read_after_start_never_raises_run :
  let s := run_ops (tis := Sim.tisgrabber) [Op_read]
             (snd (start false Sim.one_camera)) in
  0 < _width (self s) /\ 0 < _height (self s) /\
  8 <= _bits_per_pixel (self s) /\
  _width (self s) * _height (self s) * _bits_per_pixel (self s)
    <= PY_SSIZE_T_MAX /\
  exists r, fst (read s) = Return r.
Proof.
  intros s.
  assert (Hw : 0 < _width (self s)) by (vm_compute; reflexivity).
  assert (Hh : 0 < _height (self s)) by (vm_compute; reflexivity).
  assert (Hb : 8 <= _bits_per_pixel (self s)) by (vm_compute; discriminate).
  assert (Hm : _width (self s) * _height (self s) * _bits_per_pixel (self s)
               <= PY_SSIZE_T_MAX) by (vm_compute; discriminate).
  repeat (split; [assumption |]).
  exact (read_after_start_never_raises (tis := Sim.tisgrabber) false
           Sim.one_camera [Op_read] Hw Hh Hb Hm).
Defined.

(** X2 on a run: the camera reports a negative bit depth; the buffer size
    is negative and [read] raises. *)
Lemma read_raises_iff_misfit_run :
  snap_status Sim.bad_format = IC_SUCCESS /\
  snap_pointer Sim.bad_format = Some 65536 /\
  ~ fits (self Sim.bad_format) /\
  exists e, fst (read Sim.bad_format) = Raise e.
Proof.
  assert (H : snap_status Sim.bad_format = IC_SUCCESS) by reflexivity.
  assert (N : snap_pointer Sim.bad_format = Some 65536) by reflexivity.
  assert (F : ~ fits (self Sim.bad_format)).
  { intros ((F & _) & _). vm_compute in F. apply F. reflexivity. }
  repeat (split; [assumption |]).
  exact (proj2 (read_raises_iff_misfit (tis := Sim.tisgrabber) Sim.bad_format
                  65536 H N) F).
Defined.

(** X4 on a run: the camera is unplugged and the callback has run. *)
Lemma read_failed_snap_returns_flag_run :
  snap_status Sim.unplugged <> IC_SUCCESS /\
  fst (read Sim.unplugged) = Return (RPair false None) /\
  logged (snd (read Sim.unplugged)) = logged Sim.unplugged.
Proof.
  assert (H : snap_status Sim.unplugged <> IC_SUCCESS)
    by (vm_compute; discriminate).
  destruct (read_failed_snap_returns_flag (tis := Sim.tisgrabber) Sim.unplugged H)
    as (_ & L & R).
  split; [exact H |]. split; [| exact L].
  apply (R (run_ops [@Op_vendor Sim.tisgrabber (Sim.set_devices [])]
              Sim.one_camera)).
  reflexivity.
Defined.

(** X6 on a run: two cameras; the handle 4096 of the constructor gives
    way to the dialog's 4104. *)
Lemma open_device_by_dialog_run :
  valid (loaded no_path true Sim.two_on_bus) = false /\
  1 < IC_GetDeviceCount (lib (loaded no_path true Sim.two_on_bus)) /\
  _hGrabber (self Sim.two_on_bus) = 4096 /\
  _hGrabber (self (snd (open_device no_path Sim.two_on_bus))) = 4104.
Proof.
  assert (V : valid (loaded no_path true Sim.two_on_bus) = false) by reflexivity.
  assert (C : 1 < IC_GetDeviceCount (lib (loaded no_path true Sim.two_on_bus)))
    by reflexivity.
  destruct (open_device_by_dialog (tis := Sim.tisgrabber) no_path
              Sim.two_on_bus V C) as (Hh & _).
  repeat (split; [assumption || reflexivity |]).
  rewrite Hh. reflexivity.
Defined.

(** X7 on a run: the configuration file names the camera on the bus. *)
Lemma open_device_by_config_run :
  valid (loaded "camera.xml" true Sim.with_config) = true /\
  IC_GetDeviceName (lib (loaded "camera.xml" true Sim.with_config))
    (_hGrabber (self Sim.with_config)) = Some "DFK 33UX264" /\
  fst (open_device "camera.xml" Sim.with_config) = Return true /\
  Forall (fun c => selects_device c = false)
         (new_calls Sim.with_config (snd (open_device "camera.xml" Sim.with_config))).
Proof.
  assert (V : valid (loaded "camera.xml" true Sim.with_config) = true)
    by reflexivity.
  assert (Nm : IC_GetDeviceName (lib (loaded "camera.xml" true Sim.with_config))
                 (_hGrabber (self Sim.with_config)) = Some "DFK 33UX264")
    by reflexivity.
  destruct (open_device_by_config (tis := Sim.tisgrabber) "camera.xml"
              Sim.with_config "DFK 33UX264" V Nm) as (R & Cs & _).
  repeat (split; [assumption |]).
  rewrite Cs. repeat constructor.
Defined.

(** X9 on a run: read, load, start and the property dialog keep the
    handle. *)
Lemma handle_written_by_open_device_only_run :
  let ops := [@Op_read Sim.tisgrabber; Op_show_property_dialog;
              Op_load_properties "camera.xml" false; Op_start true] in
  forallb (fun op => negb (is_open_device op) && negb (is_release op)) ops
    = true /\
  _hGrabber (self (run_ops ops Sim.one_camera)) = 4096.
Proof.
  intros ops.
  assert (H : forallb (fun op => negb (is_open_device op) && negb (is_release op))
                ops = true) by reflexivity.
  split; [exact H |].
  rewrite (handle_written_by_open_device_only (tis := Sim.tisgrabber) ops
             Sim.one_camera H).
  reflexivity.
Defined.

(** X10 on a run: the camera changes its format and a configuration is
    loaded; the cached geometry is still that of the last [start]. *)
Lemma geometry_written_by_start_only_run :
  let ops := [@Op_vendor Sim.tisgrabber (Sim.set_format (mkDesc 4 4 8 0));
              Op_load_properties "camera.xml" false; Op_read;
              Op_open_device no_path] in
  forallb (fun op => negb (is_start op)) ops = true /\
  geometry (self (run_ops ops Sim.one_camera)) = (2, 2, 24, 0, 3, 96).
Proof.
  intros ops.
  assert (H : forallb (fun op => negb (is_start op)) ops = true) by reflexivity.
  split; [exact H |].
  rewrite (geometry_written_by_start_only (tis := Sim.tisgrabber) ops
             Sim.one_camera H).
  reflexivity.
Defined.

(** X11 on a run: two cameras, the session reopened through the dialog;
    no grabber is stopped or released. *)
Lemma grabber_ended_by_release_only_run :
  let ops := [@Op_open_device Sim.tisgrabber no_path; Op_read] in
  forallb (fun op => negb (is_release op)) ops = true /\
  Forall not_ending (new_calls Sim.two_on_bus (run_ops ops Sim.two_on_bus)).
Proof.
  intros ops.
  assert (H : forallb (fun op => negb (is_release op)) ops = true) by reflexivity.
  split; [exact H |].
  exact (proj2 (grabber_ended_by_release_only (tis := Sim.tisgrabber) no_path
                  true (Sim.bench [] None None) ops Sim.two_on_bus) H).
Defined.

(** X12 on a run: a load that succeeds logs nothing. *)
Lemma load_properties_logs_four_statuses_run :
  load_status "camera.xml" false Sim.with_config = 1 /\
  new_logged Sim.with_config
    (snd (load_properties "camera.xml" false Sim.with_config)) = [].
Proof.
  assert (St : load_status "camera.xml" false Sim.with_config = 1) by reflexivity.
  split; [exact St |].
  apply (load_properties_logs_four_statuses (tis := Sim.tisgrabber)
           "camera.xml" false Sim.with_config).
  rewrite St. cbn. intros [H | [H | [H | H]]]; discriminate H.
Defined.

End More_runs.
